(** * on-demand-scraping: the job execution orchestrator of [app.mjs]

    A shallow embedding of the request handler [startScrapperJob] and of the
    functions it calls: the request validation ([validateParams] with its
    inner [isValidPartialPath]), the container run ([runDockerCommand],
    [createDockerContainer], [startDockerContainer],
    [captureContainerResultFromLogs], [waitForContainerToFinish]) and the
    image recovery ([handleImageNotFoundThenRetry]).

    The host (file system, working directory) and the container engine are
    not code of the repository: they appear as records of replies that the
    embedded functions consult, so that every statement quantifies over what
    the outside world may answer. *)

From Stdlib Require Import String Ascii List ZArith Bool Lia.
From Stdlib Require Import DecimalString.
From Stdlib Require Import Floats.SpecFloat.
Import ListNotations.

Set Warnings "-register-all".

Open Scope string_scope.

(* ================================================================= *)
(** ** JavaScript strings *)

Module JsString.

(** [s.startsWith(pre)] *)
Fixpoint startsWith (s pre : string) : bool :=
  match pre, s with
  | EmptyString, _ => true
  | String _ _, EmptyString => false
  | String a pre', String b s' => Ascii.eqb a b && startsWith s' pre'
  end.

(** [s.includes(sub)] *)
Fixpoint includes (s sub : string) : bool :=
  startsWith s sub ||
  match s with
  | EmptyString => false
  | String _ s' => includes s' sub
  end.

(** [s.split('/')] *)
Fixpoint split_slash (s : string) : list string :=
  match s with
  | EmptyString => [EmptyString]
  | String c s' =>
      if Ascii.eqb c "/"%char then EmptyString :: split_slash s'
      else match split_slash s' with
           | h :: t => String c h :: t
           | [] => [String c EmptyString]
           end
  end.

(** [parts.join('/')] *)
Fixpoint join_slash (parts : list string) : string :=
  match parts with
  | [] => EmptyString
  | [p] => p
  | p :: rest => p ++ "/" ++ join_slash rest
  end.

(** The text a template literal gives for an integer number. *)
Definition of_Z (n : Z) : string := NilZero.string_of_int (Z.to_int n).

End JsString.

(* ================================================================= *)
(** ** JavaScript values and errors *)

(** A request body after [express.json()], and every value that can stand
    in one of its properties.  Numbers are IEEE doubles. *)
Inductive value : Type :=
| VUndefined
| VNull
| VBool (b : bool)
| VNum (f : spec_float)
| VStr (s : string)
| VArr (items : list value)
| VObj (props : list (string * value)).

(** The JSON payload a container engine error may carry in [err.json]. *)
Inductive json_field : Type :=
| JsonAbsent                       (* [err.json] is undefined (falsy) *)
| JsonWithoutMessage               (* [err.json] is truthy, [err.json.message] undefined *)
| JsonMessage (m : string).        (* [err.json.message] is the string [m] *)

(** A thrown value: the properties of an error object the program reads. *)
Record error : Type := mkError {
  message : string;
  statusCode : option Z;
  json : json_field
}.

(** [new Error(msg)], and every error of the runtime itself. *)
Definition Error (msg : string) : error :=
  {| message := msg; statusCode := None; json := JsonAbsent |}.

Definition TypeError (msg : string) : error := Error msg.

(** Result of a synchronous call: it returns or it throws. *)
Inductive completion (A : Type) : Type :=
| Normal (a : A)
| Throw (e : error).
Arguments Normal {A} a.
Arguments Throw {A} e.

Definition cbind {A B} (c : completion A) (k : A -> completion B) : completion B :=
  match c with
  | Normal a => k a
  | Throw e => Throw e
  end.

(** [try { body } catch (err) { handler(err) }] *)
Definition try_catch {A} (body : completion A) (handler : error -> A) : A :=
  match body with
  | Normal a => a
  | Throw e => handler e
  end.

Declare Scope completion_scope.
Delimit Scope completion_scope with completion.
Notation "x <- c ;; k" := (cbind c (fun x => k))
  (at level 61, c at next level, right associativity) : completion_scope.

(** ToBoolean *)
Definition truthy (v : value) : bool :=
  match v with
  | VUndefined | VNull => false
  | VBool b => b
  | VNum (S754_zero _) | VNum S754_nan => false
  | VNum _ => true
  | VStr s => negb (String.eqb s EmptyString)
  | VArr _ | VObj _ => true
  end.

Fixpoint lookup_prop (key : string) (props : list (string * value)) : value :=
  match props with
  | [] => VUndefined
  | (k, v) :: rest => if String.eqb k key then v else lookup_prop key rest
  end.

(** [v[key]] for a key that no prototype defines (the program only reads
    ["programDirectory"]): reading a property of [undefined] or [null]
    throws, a primitive or an array has no such property, an object gives
    its own property. *)
Definition get_prop (v : value) (key : string) : completion value :=
  match v with
  | VUndefined | VNull =>
      Throw (TypeError ("Cannot read properties of undefined (reading '" ++ key ++ "')"))
  | VObj props => Normal (lookup_prop key props)
  | _ => Normal VUndefined
  end.

(** What [express.json()] hands over in [req.body]: an object or an array. *)
Definition is_object (v : value) : bool :=
  match v with
  | VObj _ | VArr _ => true
  | _ => false
  end.

Definition has_prop (key : string) (v : value) : bool :=
  match v with
  | VObj props => existsb (fun kv => String.eqb (fst kv) key) props
  | _ => false
  end.

(* ================================================================= *)
(** ** [node:path] on POSIX *)

Module Path.

Import JsString.

(** [normalizeString]: drops empty and ["."] segments, lets [".."] remove
    the segment before it; above the root [".."] is kept only when
    [allowAboveRoot].  [stack] holds the kept segments, last first. *)
Fixpoint normalize_segments (allowAboveRoot : bool) (segs stack : list string)
  : list string :=
  match segs with
  | [] => rev stack
  | seg :: rest =>
      if String.eqb seg EmptyString || String.eqb seg "." then
        normalize_segments allowAboveRoot rest stack
      else if String.eqb seg ".." then
        match stack with
        | top :: below =>
            if String.eqb top ".." then
              normalize_segments allowAboveRoot rest (seg :: stack)
            else normalize_segments allowAboveRoot rest below
        | [] =>
            if allowAboveRoot then normalize_segments allowAboveRoot rest [seg]
            else normalize_segments allowAboveRoot rest []
        end
      else normalize_segments allowAboveRoot rest (seg :: stack)
  end.

Definition normalizeString (path : string) (allowAboveRoot : bool) : string :=
  join_slash (normalize_segments allowAboveRoot (split_slash path) []).

(** The loop of [resolve], from the last argument to the first and then
    the working directory, until an absolute path is met. *)
Fixpoint resolve_loop (cwd : string) (rev_args : list value) (resolvedPath : string)
  : completion (string * bool) :=
  let step (path : string) (continue : string -> completion (string * bool)) :=
    if String.eqb path EmptyString then continue resolvedPath
    else
      let resolvedPath' := path ++ "/" ++ resolvedPath in
      if startsWith path "/" then Normal (resolvedPath', true)
      else continue resolvedPath' in
  match rev_args with
  | [] => step cwd (fun r => Normal (r, false))
  | VStr path :: rest => step path (resolve_loop cwd rest)
  | _ :: _ =>
      Throw (TypeError "The paths argument must be of type string")
  end.

End Path.

Module PathResolve.

Import JsString Path.

(** [path.resolve(...args)] with the working directory [cwd]: a
    non-string argument that the loop reaches throws. *)
Definition resolve (cwd : string) (args : list value) : completion string :=
  match resolve_loop cwd (rev args) EmptyString with
  | Throw e => Throw e
  | Normal (resolvedPath, resolvedAbsolute) =>
      let normalized := normalizeString resolvedPath (negb resolvedAbsolute) in
      if resolvedAbsolute then Normal ("/" ++ normalized)
      else if String.eqb normalized EmptyString then Normal "."
      else Normal normalized
  end.

End PathResolve.

(* ================================================================= *)
(** ** The host the service runs on *)

(** [BASE_PATH_FOR_SCRIPTS] is the module constant of line 6, already
    resolved; [realpathSync] is [fs.realpathSync] on the file system as it
    is when the request arrives: it returns the canonical path or throws. *)
Record Host : Type := mkHost {
  cwd : string;
  BASE_PATH_FOR_SCRIPTS : string;
  realpathSync : string -> completion string;
  Buffer_toString : list Byte.byte -> string   (* [data.toString()] of a chunk *)
}.

(* ================================================================= *)
(** ** Request validation *)

Module Validation.

Import JsString.
Local Open Scope completion_scope.

Section WithHost.

Variable host : Host.

(** The [try] block of [isValidPartialPath]. *)
Definition resolve_and_compare (userInputPath : value) : completion bool :=
  realBaseDir <- realpathSync host (BASE_PATH_FOR_SCRIPTS host) ;;
  resolved <- PathResolve.resolve (cwd host)
                [VStr (BASE_PATH_FOR_SCRIPTS host); userInputPath] ;;
  realResolvedPath <- realpathSync host resolved ;;
  Normal (startsWith realResolvedPath realBaseDir).

(** The inner function of [validateParams]. *)
Definition isValidPartialPath (userInputPath : value) : bool :=
  try_catch (resolve_and_compare userInputPath) (fun _ => false).

Definition requiredFields : list string := ["programDirectory"].

(** The [for] loop over the required fields: the first missing one gives
    the error and leaves the labelled block. *)
Fixpoint check_required (params : value) (fields : list string)
  : completion (option string) :=
  match fields with
  | [] => Normal None
  | field :: rest =>
      v <- get_prop params field ;;
      if negb (truthy v) then Normal (Some ("Error: " ++ field ++ " is required"))
      else check_required params rest
  end.

Record validation : Type := mkValidation {
  isValid : bool;
  error_of : option string
}.

(** [!error] for the local [error], a string or [undefined]. *)
Definition not_error (error : option string) : bool :=
  match error with
  | None => true
  | Some s => negb (truthy (VStr s))
  end.

(** The labelled block and the [return]; the two versions of the file
    differ in the text [invalid] of the second error only. *)
Definition validate_with (invalid : string) (params : value)
  : completion validation :=
  missing <- check_required params requiredFields ;;
  error <- match missing with
           | Some e => Normal (Some e)
           | None =>
               programDirectory <- get_prop params "programDirectory" ;;
               if negb (isValidPartialPath programDirectory)
               then Normal (Some invalid)
               else Normal None
           end ;;
  Normal {| isValid := not_error error; error_of := error |}.

Definition invalid_directory_message : string :=
  "Error: Invalid program directory, what are you trying to do Mr. Hacker?".

(** [validateParams] of [src/app.mjs] *)
Definition validateParams (params : value) : completion validation :=
  validate_with invalid_directory_message params.

End WithHost.

End Validation.

(* ================================================================= *)
(** ** Promises, the container engine and the trace of a job *)

(** How an awaited promise ends.  [Pending] is a promise that never settles;
    [Uncaught] is an exception thrown in a callback that no [try] encloses;
    [OutOfFuel] belongs to the embedding only: the recursion of
    [runDockerCommand] through the image pull has no bound in the source. *)
Inductive outcome (A : Type) : Type :=
| Fulfilled (a : A)
| Rejected (e : error)
| Pending
| Uncaught (e : error)
| OutOfFuel.
Arguments Fulfilled {A} a.
Arguments Rejected {A} e.
Arguments Pending {A}.
Arguments Uncaught {A} e.
Arguments OutOfFuel {A}.

(** What the engine answers to one call. *)
Inductive reply (A : Type) : Type :=
| Fulfils (a : A)
| Rejects (e : error)
| NeverSettles.
Arguments Fulfils {A} a.
Arguments Rejects {A} e.
Arguments NeverSettles {A}.

(** Events of the attached standard-output stream, in the order emitted. *)
Inductive stream_event : Type :=
| Data (chunk : list Byte.byte)
| End
| StreamError (e : error).

(** What [docker.pull(image, callback)] and [followProgress] do. *)
Inductive pull_reply : Type :=
| PullThrows (e : error)            (* the awaited call itself throws *)
| PullCallbackNever                 (* the callback is never invoked *)
| PullCallbackError (e : error)     (* callback invoked with [err] *)
| PullProgressNever                 (* stream handed over, [onFinished] never called *)
| PullFinished (err : option error) (* [onFinished(err)] *).

(** The engine during one call of [runDockerCommand].  The standard-error
    stream is given by the data it delivers: the source pipes it to
    [process.stderr] and registers no listener on it. *)
Record attempt : Type := mkAttempt {
  createContainer_reply : reply unit;
  start_reply : reply unit;
  attach_stdout_reply : reply (list stream_event);
  attach_stderr_reply : reply (list (list Byte.byte));   (* the data it delivers *)
  stderr_attach_settles_first : bool;
  wait_reply : reply Z;               (* [data.StatusCode] *)
  pull : pull_reply
}.

(** The engine of a job: its answers in the n-th call of
    [runDockerCommand] (the first call is number 0). *)
Definition Engine : Type := nat -> attempt.

Definition container : Type := nat.

Record JobConfig : Type := mkJobConfig {
  bashStartUpCmd : string;
  programDirectory : value
}.

Inductive event : Type :=
| EvCreateContainer (image : string) (jobConfig : JobConfig)
| EvStart (c : container)
| EvAttach (c : container) (stdout stderr : bool)
| EvWait (c : container)
| EvPull (image : string)
| EvStderrWrite (chunk : list Byte.byte)
| EvLogError (label : string) (e : error).   (* [console.error], [logger.error] *)

(** An asynchronous computation: the events it causes and how it ends. *)
Definition Async (A : Type) : Type := list event * outcome A.

Module AsyncM.

Definition ret {A} (a : A) : Async A := ([], Fulfilled a).
Definition reject {A} (e : error) : Async A := ([], Rejected e).
Definition emit (ev : event) : Async unit := ([ev], Fulfilled tt).

Definition bind {A B} (m : Async A) (k : A -> Async B) : Async B :=
  match m with
  | (t, Fulfilled a) => let (t', o) := k a in ((t ++ t')%list, o)
  | (t, Rejected e) => (t, Rejected e)
  | (t, Pending) => (t, Pending)
  | (t, Uncaught e) => (t, Uncaught e)
  | (t, OutOfFuel) => (t, OutOfFuel)
  end.

(** [try { await body } catch (err) { handler(err) }] *)
Definition catch {A} (body : Async A) (handler : error -> Async A) : Async A :=
  match body with
  | (t, Rejected e) => let (t', o) := handler e in ((t ++ t')%list, o)
  | other => other
  end.

(** [await] of an engine call *)
Definition await {A} (r : reply A) : Async A :=
  match r with
  | Fulfils a => ret a
  | Rejects e => reject e
  | NeverSettles => ([], Pending)
  end.

(** a synchronous step inside an [async] function *)
Definition lift {A} (c : completion A) : Async A :=
  match c with
  | Normal a => ret a
  | Throw e => reject e
  end.

End AsyncM.

Declare Scope async_scope.
Delimit Scope async_scope with async.
Notation "x <- m ;; k" := (AsyncM.bind m (fun x => k))
  (at level 61, m at next level, right associativity) : async_scope.
Notation "m ;; k" := (AsyncM.bind m (fun _ => k))
  (at level 61, right associativity) : async_scope.

(* ================================================================= *)
(** ** The orchestrator of [src/app.mjs] *)

Record response : Type := mkResponse {
  status : Z;
  body : option string + option string
    (* [inl message]: the JSON [{status: 'error', message}];
       [inr result]: the JSON of [result], [None] for [undefined] *)
}.

Module App.

Import JsString AsyncM.
Local Open Scope async_scope.

Definition IMAGE : string := "ghcr.io/puppeteer/puppeteer:22.10.0".

(** The body builds an object and drops it. *)
Definition publishFeedback (status message : string) : Async unit := ret tt.

Definition commandParts : list string :=
  [ "mkdir -p /home/pptruser/workdir";
    "cp -r /home/pptruser/app/{.,}* /home/pptruser/workdir/";
    "cd /home/pptruser/workdir";
    "npm ci";
    "node app.mjs" ].

(** The object [jobConfig] of [runDockerCommand]. *)
Definition jobConfig_of (dir : value) : JobConfig :=
  {| bashStartUpCmd := String.concat " && " commandParts;
     programDirectory := dir |}.

Definition value_of_JobConfig (jobConfig : JobConfig) : value :=
  VObj [ ("bashStartUpCmd", VStr (bashStartUpCmd jobConfig));
         ("programDirectory", programDirectory jobConfig) ].

(** [err.statusCode === 404 && err.json && err.json.message.includes('No such image')];
    [includes] on a missing [message] throws. *)
Definition image_not_found (err : error) : completion bool :=
  match statusCode err with
  | Some code =>
      if Z.eqb code 404 then
        match json err with
        | JsonAbsent => Normal false
        | JsonWithoutMessage =>
            Throw (TypeError "Cannot read properties of undefined (reading 'includes')")
        | JsonMessage m => Normal (includes m "No such image")
        end
      else Normal false
  | None => Normal false
  end.

(** The executor [collectStdout] run over the events of the stream. *)
Fixpoint collectStdout (toString : list Byte.byte -> string)
    (events : list stream_event) (stdoutData : string) : outcome (option string) :=
  match events with
  | [] => Pending
  | Data data :: later => collectStdout toString later (stdoutData ++ toString data)
  | End :: _ => Fulfilled (Some stdoutData)
  | StreamError err :: _ => Rejected err
  end.

(** [Promise.all] of the two [attach] calls. *)
Definition attach_both (a : attempt) : Async (list stream_event * list (list Byte.byte)) :=
  match attach_stdout_reply a, attach_stderr_reply a with
  | Fulfils out, Fulfils err => ret (out, err)
  | Rejects e1, Rejects e2 =>
      reject (if stderr_attach_settles_first a then e2 else e1)
  | Rejects e, _ => reject e
  | _, Rejects e => reject e
  | _, _ => ([], Pending)
  end.

(** [stderrStream.pipe(process.stderr)] *)
Definition pipe_to_stderr (chunks : list (list Byte.byte)) : Async unit :=
  (map EvStderrWrite chunks, Fulfilled tt).

Section WithEngine.

Variable host : Host.
Variable engine : Engine.

Definition createDockerContainer (n : nat) (jobConfig : JobConfig) : Async container :=
  emit (EvCreateContainer IMAGE jobConfig) ;;
  await (createContainer_reply (engine n)) ;;
  ret n.

Definition startDockerContainer (c : container) : Async unit :=
  emit (EvStart c) ;;
  await (start_reply (engine c)).

(** The promise of [collectStdout] is returned, not awaited, inside the
    [try]: its rejection passes the [catch], which only sees a failed
    [attach] and then lets the function end without a value. *)
Definition captureContainerResultFromLogs (c : container) : Async (option string) :=
  returned <-
    catch
      (emit (EvAttach c true false) ;;
       emit (EvAttach c false true) ;;
       streams <- attach_both (engine c) ;;
       pipe_to_stderr (snd streams) ;;
       ret (collectStdout (Buffer_toString host) (fst streams) EmptyString))
      (fun err =>
         emit (EvLogError "Error attaching to Docker container streams:" err) ;;
         ret (Fulfilled None)) ;;
  ([], returned).

Definition waitForContainerToFinish (c : container) : Async unit :=
  emit (EvWait c) ;;
  StatusCode <- await (wait_reply (engine c)) ;;
  if Z.eqb StatusCode 0 then
    publishFeedback "info" "Puppeteer script executed successfully."
  else
    reject (Error ("Puppeteer script execution failed with exit code "
                   ++ of_Z StatusCode)).

(** [retry] is the call [runDockerCommand(jobParams)] of [onFinished];
    [n] is the call of [runDockerCommand] that asked for the pull. *)
Definition handleImageNotFoundThenRetry
    (retry : value -> Async (option string)) (n : nat) (jobParams : JobConfig)
  : Async (option string) :=
  emit (EvPull IMAGE) ;;
  match pull (engine n) with
  | PullThrows err => reject err
  | PullCallbackNever => ([], Pending)
  | PullCallbackError err => ([], Uncaught err)
  | PullProgressNever => ([], Pending)
  | PullFinished (Some err) =>
      emit (EvLogError "Error pulling Docker image:" err) ;;
      publishFeedback "error" ("Failed to pull Docker image: " ++ message err) ;;
      ([], Pending)
  | PullFinished None => retry (value_of_JobConfig jobParams)
  end.

(** The [try] block of [runDockerCommand]. *)
Definition run_container (n : nat) (jobConfig : JobConfig) : Async (option string) :=
  container <- createDockerContainer n jobConfig ;;
  startDockerContainer container ;;
  containerResult <- captureContainerResultFromLogs container ;;
  waitForContainerToFinish container ;;
  ret containerResult.

Fixpoint runDockerCommand (fuel n : nat) (jobParams : value) : Async (option string) :=
  match fuel with
  | O => ([], OutOfFuel)
  | S fuel' =>
      dir <- lift (get_prop jobParams "programDirectory") ;;
      let jobConfig := jobConfig_of dir in
      catch (run_container n jobConfig)
        (fun err =>
           absent <- lift (image_not_found err) ;;
           if absent : bool then
             handleImageNotFoundThenRetry (runDockerCommand fuel' (S n)) n jobConfig
           else reject err)
  end.

Definition startScrapperJob (fuel : nat) (params : value) : Async response :=
  validationResult <- lift (Validation.validateParams host params) ;;
  if negb (Validation.isValid validationResult) then
    ret {| status := 400; body := inl (Validation.error_of validationResult) |}
  else
    catch
      (result <- runDockerCommand fuel 0 params ;;
       ret {| status := 200; body := inr result |})
      (fun err =>
         emit (EvLogError "Failed to execute Docker command:" err) ;;
         ret {| status := 500;
                body := inl (Some ("Puppeteer script execution failed: "
                                   ++ message err)) |}).

End WithEngine.

End App.

(* ================================================================= *)
(** ** A file system to run the validator on

    [fs.realpathSync] belongs to the runtime.  The statements below hold for
    every function in its place; the file system of this section gives the
    concrete hosts on which the theorems are exercised. *)

Module PosixFs.

Import JsString.

Inductive node : Type :=
| Dir
| File
| Symlink (target : string).

(** Entries by absolute path, as [lstat] finds them (the root is implied). *)
Definition tree : Type := list (string * node).

Fixpoint lstat (t : tree) (path : string) : option node :=
  match t with
  | [] => None
  | (p, n) :: rest => if String.eqb p path then Some n else lstat rest path
  end.

Definition segments (path : string) : list string :=
  filter (fun s => negb (String.eqb s EmptyString)) (split_slash path).

(** The path of a directory given by its segments, the last one first. *)
Definition render (done : list string) : string :=
  "/" ++ join_slash (rev done).

(** Walks the segments still to do from the real directory [done] (its
    segments, the last one first; the root has none).  A link is followed
    where it stands: its target is walked from the directory of the link,
    or from the root when it is absolute, before the rest of the path, so
    that [..] after a link leaves the directory the link leads to.
    [steps] bounds the walk, as [ELOOP] does. *)
Fixpoint walk (steps : nat) (t : tree) (done : list string) (todo : list string)
  : completion string :=
  match steps with
  | O => Throw (Error "ELOOP: too many symbolic links encountered")
  | S steps' =>
      match todo with
      | [] => Normal (render done)
      | seg :: rest =>
          if String.eqb seg EmptyString || String.eqb seg "." then
            walk steps' t done rest
          else if String.eqb seg ".." then
            walk steps' t (tl done) rest
          else
            let base := render (seg :: done) in
            match lstat t base with
            | None => Throw (Error ("ENOENT: no such file or directory, lstat '" ++ base ++ "'"))
            | Some Dir => walk steps' t (seg :: done) rest
            | Some File =>
                match rest with
                | [] => Normal base
                | _ :: _ => Throw (Error ("ENOTDIR: not a directory, lstat '" ++ base ++ "'"))
                end
            | Some (Symlink target) =>
                walk steps' t (if startsWith target "/" then [] else done)
                     (split_slash target ++ rest)%list
            end
      end
  end.

(** [fs.realpathSync(path)] for an absolute [path] on the tree [t]. *)
Definition realpath (t : tree) (path : string) : completion string :=
  walk 64 t [] (split_slash path).

(** A host whose sandbox is [/srv/scripts], among neighbours. *)
Definition demo_tree : tree :=
  [ ("/srv", Dir);
    ("/srv/scripts", Dir);
    ("/srv/scripts/job1", Dir);
    ("/srv/scripts/job1/app.mjs", File);
    ("/srv/scripts/out", Symlink "/etc");
    ("/srv/scripts/loop", Symlink "loop");
    ("/srv/scripts/same", Symlink "./job1/../job1");
    ("/srv/scripts/hosts", File);
    ("/srv/scripts/sneaky", Symlink "out/../hosts");
    ("/hosts", File);
    ("/srv/scripts-old", Dir);
    ("/srv/scripts-old/job9", Dir);
    ("/etc", Dir) ].

Definition demo_host : Host :=
  {| cwd := "/usr/app";
     BASE_PATH_FOR_SCRIPTS := "/srv/scripts";
     realpathSync := realpath demo_tree;
     Buffer_toString := string_of_list_byte |}.

End PosixFs.

(** The location [path] is the directory [base] or lies below it: the
    segments of [base] begin those of [path]. *)
Fixpoint list_prefixb (xs ys : list string) : bool :=
  match xs, ys with
  | [], _ => true
  | _ :: _, [] => false
  | x :: xs', y :: ys' => String.eqb x y && list_prefixb xs' ys'
  end.

Definition inside_directory (base path : string) : bool :=
  list_prefixb (PosixFs.segments base) (PosixFs.segments path).

(** A canonical path is a slash followed by its segments joined by slashes. *)
Definition canonical (path : string) : Prop :=
  path = "/" ++ JsString.join_slash (PosixFs.segments path).

(* ================================================================= *)
(** ** Engines to run the orchestrator on *)

Module Scenario.

Definition bytes (s : string) : list Byte.byte := list_byte_of_string s.

(** A run in which every call succeeds: the container prints [out] on
    standard output, [err] on standard error and exits with [code]. *)
Definition run (out err : list string) (code : Z) : attempt :=
  {| createContainer_reply := Fulfils tt;
     start_reply := Fulfils tt;
     attach_stdout_reply := Fulfils (map (fun s => Data (bytes s)) out ++ [End])%list;
     attach_stderr_reply := Fulfils (map bytes err);
     stderr_attach_settles_first := false;
     wait_reply := Fulfils code;
     pull := PullFinished None |}.

Definition no_such_image : error :=
  {| message := "(HTTP code 404) no such container - No such image: ghcr.io/puppeteer/puppeteer:22.10.0 ";
     statusCode := Some 404%Z;
     json := JsonMessage "No such image: ghcr.io/puppeteer/puppeteer:22.10.0" |}.

(** The image is missing when the container is created; the pull then
    ends as [p] says. *)
Definition image_missing (p : pull_reply) : attempt :=
  {| createContainer_reply := Rejects no_such_image;
     start_reply := NeverSettles;
     attach_stdout_reply := NeverSettles;
     attach_stderr_reply := NeverSettles;
     stderr_attach_settles_first := false;
     wait_reply := NeverSettles;
     pull := p |}.

(** Both [attach] calls fail; the container itself runs and exits with 0. *)
Definition attach_fails (e : error) : attempt :=
  {| createContainer_reply := Fulfils tt;
     start_reply := Fulfils tt;
     attach_stdout_reply := Rejects e;
     attach_stderr_reply := Rejects e;
     stderr_attach_settles_first := false;
     wait_reply := Fulfils 0%Z;
     pull := PullFinished None |}.

(** The container prints [out] and exits with 0; attaching to standard
    output succeeds, attaching to standard error fails with [e]. *)
Definition stderr_attach_fails (out : list string) (e : error) : attempt :=
  {| createContainer_reply := Fulfils tt;
     start_reply := Fulfils tt;
     attach_stdout_reply := Fulfils (map (fun s => Data (bytes s)) out ++ [End])%list;
     attach_stderr_reply := Rejects e;
     stderr_attach_settles_first := true;
     wait_reply := Fulfils 0%Z;
     pull := PullFinished None |}.

(** The container is created, and starting it fails with [e]. *)
Definition start_fails (e : error) (p : pull_reply) : attempt :=
  {| createContainer_reply := Fulfils tt;
     start_reply := Rejects e;
     attach_stdout_reply := NeverSettles;
     attach_stderr_reply := NeverSettles;
     stderr_attach_settles_first := false;
     wait_reply := NeverSettles;
     pull := p |}.

(** The engine that answers the calls of [runDockerCommand] with the
    attempts of [script] in turn, and with [last] from then on. *)
Definition script (attempts : list attempt) (last : attempt) : Engine :=
  fun n => nth n attempts last.

Definition job (dir : string) : value := VObj [("programDirectory", VStr dir)].

End Scenario.

(* ================================================================= *)
(** ** The second version of the file ([src/unnamed/part_001])

    The same service with a structured logger.  It differs from
    [src/app.mjs] where an error is caught: a failed [attach] is thrown
    again, and a pull that finishes with an error rejects the promise. *)

Module Revised.

Import JsString AsyncM.
Local Open Scope async_scope.

Definition validateParams (host : Host) (params : value)
  : completion Validation.validation :=
  Validation.validate_with host "Error: Invalid program directory" params.

(** The executor [collectStdout]; its error listener logs before it rejects. *)
Fixpoint collectStdout (toString : list Byte.byte -> string)
    (events : list stream_event) (stdoutData : string) : Async (option string) :=
  match events with
  | [] => ([], Pending)
  | Data data :: later => collectStdout toString later (stdoutData ++ toString data)
  | End :: _ => ret (Some stdoutData)
  | StreamError err :: _ =>
      emit (EvLogError "Error collecting stdout logs" err) ;; reject err
  end.

Section WithEngine.

Variable host : Host.
Variable engine : Engine.

Definition createDockerContainer (n : nat) (jobConfig : JobConfig) : Async container :=
  catch
    (emit (EvCreateContainer App.IMAGE jobConfig) ;;
     await (createContainer_reply (engine n)) ;;
     ret n)
    (fun err => emit (EvLogError "Error creating Docker container" err) ;; reject err).

Definition startDockerContainer (c : container) : Async unit :=
  emit (EvStart c) ;;
  await (start_reply (engine c)).

Definition captureContainerResultFromLogs (c : container) : Async (option string) :=
  returned <-
    catch
      (emit (EvAttach c true false) ;;
       emit (EvAttach c false true) ;;
       streams <- App.attach_both (engine c) ;;
       App.pipe_to_stderr (snd streams) ;;
       ret (collectStdout (Buffer_toString host) (fst streams) EmptyString))
      (fun err =>
         emit (EvLogError "Error attaching to Docker container streams" err) ;;
         reject err) ;;
  returned.

Definition waitForContainerToFinish (c : container) : Async unit :=
  emit (EvWait c) ;;
  StatusCode <- await (wait_reply (engine c)) ;;
  if negb (Z.eqb StatusCode 0) then
    let errorMsg := "Puppeteer script execution failed with exit code "
                    ++ of_Z StatusCode in
    emit (EvLogError errorMsg (Error errorMsg)) ;;
    reject (Error errorMsg)
  else ret tt.

Definition handleImageNotFoundThenRetry
    (retry : value -> Async (option string)) (n : nat) (jobParams : JobConfig)
  : Async (option string) :=
  emit (EvPull App.IMAGE) ;;
  match pull (engine n) with
  | PullThrows err => emit (EvLogError "Error during Docker pull" err) ;; reject err
  | PullCallbackNever => ([], Pending)
  | PullCallbackError err => ([], Uncaught err)
  | PullProgressNever => ([], Pending)
  | PullFinished (Some err) =>
      emit (EvLogError "Error pulling Docker image" err) ;; reject err
  | PullFinished None => retry (App.value_of_JobConfig jobParams)
  end.

Definition run_container (n : nat) (jobConfig : JobConfig) : Async (option string) :=
  container <- createDockerContainer n jobConfig ;;
  startDockerContainer container ;;
  containerResult <- captureContainerResultFromLogs container ;;
  waitForContainerToFinish container ;;
  ret containerResult.

Fixpoint runDockerCommand (fuel n : nat) (jobParams : value) : Async (option string) :=
  match fuel with
  | O => ([], OutOfFuel)
  | S fuel' =>
      dir <- lift (get_prop jobParams "programDirectory") ;;
      let jobConfig := App.jobConfig_of dir in
      catch (run_container n jobConfig)
        (fun err =>
           absent <- lift (App.image_not_found err) ;;
           if absent : bool then
             handleImageNotFoundThenRetry (runDockerCommand fuel' (S n)) n jobConfig
           else
             emit (EvLogError "Error running Docker command" err) ;; reject err)
  end.

Definition startScrapperJob (fuel : nat) (params : value) : Async response :=
  validationResult <- lift (validateParams host params) ;;
  if negb (Validation.isValid validationResult) then
    ret {| status := 400; body := inl (Validation.error_of validationResult) |}
  else
    catch
      (result <- runDockerCommand fuel 0 params ;;
       ret {| status := 200; body := inr result |})
      (fun err =>
         emit (EvLogError "Failed to execute Docker command" err) ;;
         ret {| status := 500;
                body := inl (Some ("Puppeteer script execution failed: "
                                   ++ message err)) |}).

End WithEngine.

End Revised.

(* ================================================================= *)
(** ** What a trace shows *)

Definition is_pull (ev : event) : bool :=
  match ev with EvPull _ => true | _ => false end.

Definition is_create (ev : event) : bool :=
  match ev with EvCreateContainer _ _ => true | _ => false end.

(** Number of image pulls and of container creations a job asked for. *)
Definition pulls (t : list event) : nat := List.length (filter is_pull t).
Definition creations (t : list event) : nat := List.length (filter is_create t).

(** The chunks a stream delivers when it ends regularly: [Some] of the data
    before the first [End], [None] when an error comes first or the stream
    never ends. *)
Fixpoint data_until_end (events : list stream_event) : option (list (list Byte.byte)) :=
  match events with
  | [] => None
  | Data chunk :: later => option_map (cons chunk) (data_until_end later)
  | End :: _ => Some []
  | StreamError _ :: _ => None
  end.

(** The text of a sequence of chunks, each decoded on arrival. *)
Definition text_of (toString : list Byte.byte -> string) (chunks : list (list Byte.byte))
  : string :=
  fold_right (fun chunk rest => toString chunk ++ rest) EmptyString chunks.

(** The n-th call of [runDockerCommand] for the directory [dir] fails
    with an error that is classified as a missing image, and the pull it
    asks for finishes without error. *)
Definition pulled_and_retried (host : Host) (engine : Engine) (dir : value) (n : nat)
  : Prop :=
  exists e,
    snd (App.run_container host engine n (App.jobConfig_of dir)) = Rejected e /\
    App.image_not_found e = Normal true /\
    pull (engine n) = PullFinished None.

(** The engine with other bytes on standard error: in every run whose
    standard-error channel attaches, the channel delivers [other n]. *)
Definition with_stderr (other : nat -> list (list Byte.byte)) (engine : Engine)
  : Engine :=
  fun n =>
    let a := engine n in
    {| createContainer_reply := createContainer_reply a;
       start_reply := start_reply a;
       attach_stdout_reply := attach_stdout_reply a;
       attach_stderr_reply :=
         match attach_stderr_reply a with
         | Fulfils _ => Fulfils (other n)
         | r => r
         end;
       stderr_attach_settles_first := stderr_attach_settles_first a;
       wait_reply := wait_reply a;
       pull := pull a |}.

(** The shape of error that the [catch] of [runDockerCommand] looks for. *)
Definition no_such_image_shape (e : error) : Prop :=
  statusCode e = Some 404%Z /\
  exists m, json e = JsonMessage m /\ JsString.includes m "No such image" = true.

(** The engine as a job meets it after [k] calls of [runDockerCommand]. *)
Definition shift (k : nat) (engine : Engine) : Engine :=
  fun n => engine (k + n).

Definition is_data (ev : stream_event) : bool :=
  match ev with Data _ => true | _ => false end.

Definition is_wait (ev : event) : bool :=
  match ev with EvWait _ => true | _ => false end.

(** The creations and the pulls of a trace come in turn: a creation where
    [next_is_create] says so, then a pull, then a creation, and so on;
    the other events are passed over. *)
Fixpoint alternates (next_is_create : bool) (t : list event) : bool :=
  match t with
  | [] => true
  | ev :: rest =>
      if is_create ev then next_is_create && alternates false rest
      else if is_pull ev then negb next_is_create && alternates true rest
      else alternates next_is_create rest
  end.

(** The errors the engine hands to one run: those of its replies and those
    of the standard-output stream. *)
Definition reply_errors {A : Type} (r : reply A) : list error :=
  match r with Rejects e => [e] | _ => [] end.

Fixpoint stream_errors (events : list stream_event) : list error :=
  match events with
  | [] => []
  | StreamError e :: later => e :: stream_errors later
  | _ :: later => stream_errors later
  end.

Definition attempt_errors (a : attempt) : list error :=
  (reply_errors (createContainer_reply a) ++
   reply_errors (start_reply a) ++
   reply_errors (attach_stdout_reply a) ++
   match attach_stdout_reply a with
   | Fulfils events => stream_errors events
   | _ => []
   end ++
   reply_errors (attach_stderr_reply a) ++
   reply_errors (wait_reply a))%list.

(** No [attach] of the run is rejected, and no pull finishes with an error:
    the runs on which the two versions of the file take the same path. *)
Definition attaches_or_waits (a : attempt) : Prop :=
  reply_errors (attach_stdout_reply a) = [] /\
  reply_errors (attach_stderr_reply a) = [].

Definition pull_finishes_clean (a : attempt) : Prop :=
  forall err, pull a <> PullFinished (Some err).

(* ================================================================= *)
(** * Properties *)

(** ** Strings *)

Section StringFacts.

Import JsString.

Lemma startsWith_empty (s : string) : startsWith s EmptyString = true.
Proof. destruct s; reflexivity. Qed.

Lemma startsWith_app (s t : string) : startsWith (s ++ t) s = true.
Proof.
  induction s as [|c s IH]; simpl.
  - apply startsWith_empty.
  - now rewrite Ascii.eqb_refl, IH.
Qed.

Lemma startsWith_refl (s : string) : startsWith s s = true.
Proof.
  induction s as [|c s IH]; simpl; [reflexivity|].
  now rewrite Ascii.eqb_refl, IH.
Qed.

Lemma startsWith_cancel (a u v : string) :
  startsWith (a ++ u) (a ++ v) = startsWith u v.
Proof.
  induction a as [|c a IH]; simpl; [reflexivity|].
  now rewrite Ascii.eqb_refl, IH.
Qed.

Lemma includes_startsWith (s sub : string) :
  startsWith s sub = true -> includes s sub = true.
Proof. intros H. destruct s; simpl in *; now rewrite H. Qed.

Lemma includes_app (a s b : string) : includes (a ++ s ++ b) s = true.
Proof.
  induction a as [|c a IH].
  - change (includes (s ++ b) s = true).
    apply includes_startsWith, startsWith_app.
  - simpl. rewrite IH. apply orb_true_r.
Qed.

Lemma append_empty_r (s : string) : s ++ EmptyString = s.
Proof. induction s as [|c s IH]; simpl; congruence. Qed.

Lemma append_assoc (a b c : string) : (a ++ b) ++ c = a ++ b ++ c.
Proof. induction a as [|x a IH]; simpl; congruence. Qed.

Lemma includes_suffix (a s : string) : includes (a ++ s) s = true.
Proof.
  rewrite <- (append_empty_r s) at 1. apply includes_app.
Qed.

End StringFacts.

(* ================================================================= *)
(** ** The path sandbox validator *)

Section PathFacts.

Import JsString.

Lemma list_prefixb_app (xs zs : list string) :
  list_prefixb xs zs = true -> exists ys, zs = (xs ++ ys)%list.
Proof.
  revert zs. induction xs as [|x xs IH]; intros zs H.
  - now exists zs.
  - destruct zs as [|z zs]; [discriminate|]. simpl in H.
    apply andb_true_iff in H as [Hx Hxs]. apply String.eqb_eq in Hx. subst z.
    destruct (IH _ Hxs) as [ys ->]. now exists ys.
Qed.

Lemma join_slash_prefix (xs ys : list string) :
  startsWith (join_slash (xs ++ ys)) (join_slash xs) = true.
Proof.
  induction xs as [|x xs IH].
  - apply startsWith_empty.
  - destruct xs as [|y xs].
    + destruct ys as [|y ys].
      * apply startsWith_refl.
      * change (startsWith (x ++ "/" ++ join_slash (y :: ys)) x = true).
        apply startsWith_app.
    + change (startsWith (x ++ "/" ++ join_slash ((y :: xs) ++ ys))
                         (x ++ "/" ++ join_slash (y :: xs)) = true).
      now rewrite !startsWith_cancel.
Qed.

(** On canonical paths, a location inside the directory has the
    directory's path as a prefix of its own. *)
Lemma inside_directory_startsWith (base path : string) :
  canonical base -> canonical path ->
  inside_directory base path = true -> startsWith path base = true.
Proof.
  unfold canonical, inside_directory. intros Hb Hp Hin.
  destruct (list_prefixb_app _ _ Hin) as [ys Hys].
  rewrite Hp, Hb, Hys.
  rewrite (startsWith_cancel "/"). apply join_slash_prefix.
Qed.

End PathFacts.

Section ValidatorFacts.

Import Validation.
Variable host : Host.

(** When nothing throws, the verdict is the prefix test on the two real paths. *)
Lemma isValidPartialPath_prefix (P realBaseDir resolved realResolvedPath : string) :
  realpathSync host (BASE_PATH_FOR_SCRIPTS host) = Normal realBaseDir ->
  PathResolve.resolve (cwd host) [VStr (BASE_PATH_FOR_SCRIPTS host); VStr P]
    = Normal resolved ->
  realpathSync host resolved = Normal realResolvedPath ->
  isValidPartialPath host (VStr P)
    = JsString.startsWith realResolvedPath realBaseDir.
Proof.
  intros Hb Hr Hp. unfold isValidPartialPath, resolve_and_compare.
  rewrite Hb. simpl. rewrite Hr. simpl. rewrite Hp. reflexivity.
Qed.

(** Every path that stays inside the base directory is accepted. *)
Lemma inside_directory_is_accepted (P realBaseDir resolved realResolvedPath : string) :
  realpathSync host (BASE_PATH_FOR_SCRIPTS host) = Normal realBaseDir ->
  PathResolve.resolve (cwd host) [VStr (BASE_PATH_FOR_SCRIPTS host); VStr P]
    = Normal resolved ->
  realpathSync host resolved = Normal realResolvedPath ->
  canonical realBaseDir -> canonical realResolvedPath ->
  inside_directory realBaseDir realResolvedPath = true ->
  isValidPartialPath host (VStr P) = true.
Proof.
  intros Hb Hr Hp Cb Cp Hin.
  rewrite (isValidPartialPath_prefix _ _ _ _ Hb Hr Hp).
  now apply inside_directory_startsWith.
Qed.

(** A value that is not a string never passes: [path.resolve] throws. *)
Lemma isValidPartialPath_not_string (v : value) :
  (forall s, v <> VStr s) -> isValidPartialPath host v = false.
Proof.
  intros Hv. unfold isValidPartialPath, resolve_and_compare.
  destruct (realpathSync host (BASE_PATH_FOR_SCRIPTS host)); simpl; [|reflexivity].
  destruct v; try reflexivity. now destruct (Hv s).
Qed.

Lemma isValidPartialPath_throw (v : value) (e : error) :
  resolve_and_compare host v = Throw e -> isValidPartialPath host v = false.
Proof. unfold isValidPartialPath. now intros ->. Qed.

Lemma validate_with_falsy (invalid : string) (params v : value) :
  get_prop params "programDirectory" = Normal v ->
  truthy v = false ->
  validate_with host invalid params
    = Normal {| isValid := false;
                error_of := Some "Error: programDirectory is required" |}.
Proof.
  intros Hget Hv. unfold validate_with, requiredFields, check_required.
  rewrite Hget. simpl. rewrite Hv. reflexivity.
Qed.

Lemma validate_with_truthy (invalid : string) (params v : value) :
  get_prop params "programDirectory" = Normal v ->
  truthy v = true ->
  validate_with host invalid params
    = Normal (if isValidPartialPath host v
              then {| isValid := true; error_of := None |}
              else {| isValid := not_error (Some invalid);
                      error_of := Some invalid |}).
Proof.
  intros Hget Hv. unfold validate_with, requiredFields, check_required.
  rewrite Hget. simpl. rewrite Hv. simpl.
  now destruct (isValidPartialPath host v).
Qed.

Lemma get_prop_object (params : value) (key : string) :
  is_object params = true -> exists v, get_prop params key = Normal v.
Proof. destruct params; try discriminate; intros _; eexists; reflexivity. Qed.

Lemma get_prop_absent (params : value) (key : string) :
  is_object params = true -> has_prop key params = false ->
  get_prop params key = Normal VUndefined.
Proof.
  destruct params as [| | | | | |props]; try discriminate; intros _ H; [reflexivity|].
  simpl in *. f_equal. induction props as [|[k v] props IH]; [reflexivity|].
  simpl in *. apply orb_false_iff in H as [Hk Hrest]. rewrite Hk. now apply IH.
Qed.

End ValidatorFacts.

(** C1, at the input on which the validator and the claim part.  The
    sandbox is [/srv/scripts] and its neighbour [/srv/scripts-old] exists.
    For the request path [../scripts-old/job9] both resolutions succeed and
    the resolved path [/srv/scripts-old/job9] lies outside the base
    directory, yet its text begins with the text [/srv/scripts]:
    [isValidPartialPath] returns [true] and the request is valid. *)
Theorem sibling_directory_is_accepted :
  let host := PosixFs.demo_host in
  let P := "../scripts-old/job9" in
  realpathSync host (BASE_PATH_FOR_SCRIPTS host) = Normal "/srv/scripts" /\
  PathResolve.resolve (cwd host) [VStr (BASE_PATH_FOR_SCRIPTS host); VStr P]
    = Normal "/srv/scripts-old/job9" /\
  realpathSync host "/srv/scripts-old/job9" = Normal "/srv/scripts-old/job9" /\
  inside_directory "/srv/scripts" "/srv/scripts-old/job9" = false /\
  Validation.isValidPartialPath host (VStr P) = true /\
  Validation.validateParams host (Scenario.job P)
    = Normal {| Validation.isValid := true; Validation.error_of := None |}.
Proof. repeat split; vm_compute; reflexivity. Qed.

(** The paths the claim is right about, on the same host: a directory of
    the sandbox and a link that stays inside are accepted, a link that
    points outward, the parent directory and an absolute path elsewhere are
    rejected, and so is a path that does not exist. *)
Example validator_on_demo_host :
  map (fun P => Validation.isValidPartialPath PosixFs.demo_host (VStr P))
      ["job1"; "same"; "out"; ".."; "/etc"; "nothing"; "loop"]
  = [true; true; false; false; false; false; false].
Proof. vm_compute. reflexivity. Qed.

(** A link whose target passes through another link is followed link by
    link: [sneaky] leads to [out/../hosts], [out] leads to [/etc], and the
    real path is [/hosts], outside the sandbox. *)
Example link_through_link :
  PosixFs.realpath PosixFs.demo_tree "/srv/scripts/sneaky" = Normal "/hosts" /\
  Validation.isValidPartialPath PosixFs.demo_host (VStr "sneaky") = false.
Proof. split; vm_compute; reflexivity. Qed.

(** The module constant of line 6 for the directory of the README. *)
Example base_path_of_readme :
  PathResolve.resolve "/usr/app" [VStr "/home/supapawa/pptr-scripts/"]
  = Normal "/home/supapawa/pptr-scripts".
Proof. vm_compute. reflexivity. Qed.

(** ** Required field *)

(** C8: a request body without the field [programDirectory] is answered
    with status 400 and the message [Error: programDirectory is required],
    which names the field; the job causes no event at all, so no container
    is created. *)
Theorem missing_programDirectory_is_rejected
    (host : Host) (engine : Engine) (fuel : nat) (params : value) :
  is_object params = true ->
  has_prop "programDirectory" params = false ->
  App.startScrapperJob host engine fuel params
    = ([], Fulfilled {| status := 400;
                        body := inl (Some "Error: programDirectory is required") |})
  /\ JsString.includes "Error: programDirectory is required" "programDirectory" = true
  /\ creations (fst (App.startScrapperJob host engine fuel params)) = 0.
Proof.
  intros Hobj Hno.
  assert (E : App.startScrapperJob host engine fuel params
    = ([], Fulfilled {| status := 400;
                        body := inl (Some "Error: programDirectory is required") |})).
  { unfold App.startScrapperJob, Validation.validateParams.
    rewrite (validate_with_falsy host _ params VUndefined);
      [reflexivity | now apply get_prop_absent | reflexivity]. }
  rewrite E. split; [reflexivity|]. split; vm_compute; reflexivity.
Qed.

Lemma missing_programDirectory_is_rejected_witness :
  let params := VObj [("directory", VStr "job1")] in
  let engine := Scenario.script [] (Scenario.run ["done"] [] 0) in
  App.startScrapperJob PosixFs.demo_host engine 3 params
    = ([], Fulfilled {| status := 400;
                        body := inl (Some "Error: programDirectory is required") |})
  /\ JsString.includes "Error: programDirectory is required" "programDirectory" = true
  /\ creations (fst (App.startScrapperJob PosixFs.demo_host engine 3 params)) = 0.
Proof.
  apply (missing_programDirectory_is_rejected PosixFs.demo_host
           (Scenario.script [] (Scenario.run ["done"] [] 0)) 3
           (VObj [("directory", VStr "job1")])); reflexivity.
Defined.

(** C9: for every request body that is an object (or an array)
    [validateParams] returns a result and does not throw.  Whatever is
    thrown while the path is resolved, by [path.resolve] or by
    [fs.realpathSync], ends in a rejection; in particular a
    [programDirectory] that is not a string is never valid. *)
Theorem validateParams_never_throws (host : Host) (params : value) :
  is_object params = true ->
  exists r,
    Validation.validateParams host params = Normal r /\
    (forall v, get_prop params "programDirectory" = Normal v ->
       (forall s, v <> VStr s) ->
       Validation.isValid r = false /\ Validation.error_of r <> None) /\
    (forall v e, get_prop params "programDirectory" = Normal v ->
       Validation.resolve_and_compare host v = Throw e ->
       Validation.isValid r = false /\ Validation.error_of r <> None).
Proof.
  intros Hobj.
  destruct (get_prop_object params "programDirectory" Hobj) as [v Hget].
  unfold Validation.validateParams.
  destruct (truthy v) eqn:Hv.
  - rewrite (validate_with_truthy host _ params v Hget Hv).
    eexists. split; [reflexivity|]. split.
    + intros v' Hget' Hns. rewrite Hget in Hget'. injection Hget' as <-.
      rewrite (isValidPartialPath_not_string host v Hns). now split.
    + intros v' e Hget' Hthrow. rewrite Hget in Hget'. injection Hget' as <-.
      rewrite (isValidPartialPath_throw host v e Hthrow). now split.
  - rewrite (validate_with_falsy host _ params v Hget Hv).
    eexists. split; [reflexivity|]. split; intros; now split.
Qed.

Lemma validateParams_never_throws_witness :
  exists r,
    Validation.validateParams PosixFs.demo_host
      (VObj [("programDirectory", VObj [("a", VNum (S754_finite false 1 0))])]) = Normal r /\
    Validation.isValid r = false.
Proof.
  destruct (validateParams_never_throws PosixFs.demo_host
              (VObj [("programDirectory", VObj [("a", VNum (S754_finite false 1 0))])])
              eq_refl) as [r [Hr [Hns _]]].
  exists r. split; [exact Hr|].
  apply (Hns (VObj [("a", VNum (S754_finite false 1 0))])); [reflexivity | discriminate].
Defined.

(** C10: a [programDirectory] that is present but falsy (the empty string,
    [0], [false], [null]) is reported as the missing required field, with
    the message [Error: programDirectory is required] and status 400, and
    not as an invalid path: the loop tests [!params[field]]. *)
Theorem falsy_programDirectory_is_required_error
    (host : Host) (engine : Engine) (fuel : nat) (params v : value) :
  get_prop params "programDirectory" = Normal v ->
  truthy v = false ->
  Validation.validateParams host params
    = Normal {| Validation.isValid := false;
                Validation.error_of := Some "Error: programDirectory is required" |}
  /\ App.startScrapperJob host engine fuel params
    = ([], Fulfilled {| status := 400;
                        body := inl (Some "Error: programDirectory is required") |}).
Proof.
  intros Hget Hv.
  assert (E := validate_with_falsy host Validation.invalid_directory_message
                 params v Hget Hv).
  split; [exact E|].
  unfold App.startScrapperJob, Validation.validateParams. now rewrite E.
Qed.

Lemma falsy_programDirectory_is_required_error_witness :
  let params := VObj [("programDirectory", VStr EmptyString)] in
  let engine := Scenario.script [] (Scenario.run ["done"] [] 0) in
  has_prop "programDirectory" params = true /\
  Validation.validateParams PosixFs.demo_host params
    = Normal {| Validation.isValid := false;
                Validation.error_of := Some "Error: programDirectory is required" |}
  /\ App.startScrapperJob PosixFs.demo_host engine 3 params
    = ([], Fulfilled {| status := 400;
                        body := inl (Some "Error: programDirectory is required") |}).
Proof.
  split; [reflexivity|].
  apply (falsy_programDirectory_is_required_error PosixFs.demo_host
           (Scenario.script [] (Scenario.run ["done"] [] 0)) 3
           (VObj [("programDirectory", VStr EmptyString)]) (VStr EmptyString));
    reflexivity.
Defined.

(** The other falsy values of a JSON body end the same way. *)
Example falsy_values :
  map (fun v => Validation.validateParams PosixFs.demo_host
                  (VObj [("programDirectory", v)]))
      [VNull; VBool false; VNum (S754_zero false); VNum (S754_zero true)]
  = repeat (Normal {| Validation.isValid := false;
                      Validation.error_of := Some "Error: programDirectory is required" |}) 4.
Proof. vm_compute. reflexivity. Qed.

(* ================================================================= *)
(** ** The orchestrator *)

Section TraceFacts.

Lemma pulls_app (t u : list event) : pulls (t ++ u) = pulls t + pulls u.
Proof. unfold pulls. now rewrite filter_app, length_app. Qed.

Lemma creations_app (t u : list event) :
  creations (t ++ u) = creations t + creations u.
Proof. unfold creations. now rewrite filter_app, length_app. Qed.

Lemma pulls_stderr (chunks : list (list Byte.byte)) :
  pulls (map EvStderrWrite chunks) = 0.
Proof. induction chunks; [reflexivity | exact IHchunks]. Qed.

Lemma creations_stderr (chunks : list (list Byte.byte)) :
  creations (map EvStderrWrite chunks) = 0.
Proof. induction chunks; [reflexivity | exact IHchunks]. Qed.

End TraceFacts.

Section AsyncProjections.

Import AsyncM.
Context {A B : Type}.

Lemma fst_bind (m : Async A) (k : A -> Async B) :
  fst (bind m k)
  = (fst m ++ match snd m with Fulfilled a => fst (k a) | _ => [] end)%list.
Proof.
  destruct m as [t [a|e| |e|]]; simpl; rewrite ?app_nil_r; try reflexivity.
  now destruct (k a).
Qed.

Lemma snd_bind (m : Async A) (k : A -> Async B) :
  snd (bind m k)
  = match snd m with
    | Fulfilled a => snd (k a)
    | Rejected e => Rejected e
    | Pending => Pending
    | Uncaught e => Uncaught e
    | OutOfFuel => OutOfFuel
    end.
Proof. destruct m as [t [a|e| |e|]]; simpl; try reflexivity. now destruct (k a). Qed.

Lemma fst_catch (m : Async A) (h : error -> Async A) :
  fst (catch m h)
  = (fst m ++ match snd m with Rejected e => fst (h e) | _ => [] end)%list.
Proof.
  destruct m as [t [a|e| |e|]]; simpl; rewrite ?app_nil_r; try reflexivity.
  now destruct (h e).
Qed.

Lemma snd_catch (m : Async A) (h : error -> Async A) :
  snd (catch m h)
  = match snd m with Rejected e => snd (h e) | o => o end.
Proof. destruct m as [t [a|e| |e|]]; simpl; try reflexivity. now destruct (h e). Qed.

End AsyncProjections.

Lemma fst_await {A} (r : reply A) : fst (AsyncM.await r) = [].
Proof. now destruct r. Qed.

Lemma fst_attach_both (a : attempt) : fst (App.attach_both a) = [].
Proof.
  unfold App.attach_both.
  destruct (attach_stdout_reply a), (attach_stderr_reply a); reflexivity.
Qed.

#[local] Arguments AsyncM.bind : simpl never.
#[local] Arguments AsyncM.catch : simpl never.

(** Pushes [fst] and [snd] through the monad and the counters through
    concatenation. *)
Ltac project :=
  repeat (rewrite ?fst_bind, ?snd_bind, ?fst_catch, ?snd_catch, ?fst_await,
            ?fst_attach_both, ?pulls_app, ?creations_app,
            ?pulls_stderr, ?creations_stderr, ?app_nil_r;
          cbn [fst snd AsyncM.ret AsyncM.reject AsyncM.emit AsyncM.await AsyncM.lift]).

Section OrchestratorFacts.

Import AsyncM.
Variable host : Host.
Variable engine : Engine.

Lemma capture_counts (c : container) :
  pulls (fst (App.captureContainerResultFromLogs host engine c)) = 0 /\
  creations (fst (App.captureContainerResultFromLogs host engine c)) = 0.
Proof.
  unfold App.captureContainerResultFromLogs, App.pipe_to_stderr.
  project.
  destruct (snd (App.attach_both (engine c))); project; auto.
Qed.

(** Events of one run: only the first is a creation, none is a pull. *)
Lemma run_container_counts (n : nat) (jobConfig : JobConfig) :
  pulls (fst (App.run_container host engine n jobConfig)) = 0 /\
  creations (fst (App.run_container host engine n jobConfig)) = 1.
Proof.
  destruct (capture_counts n) as [Hp Hc].
  unfold App.run_container, App.createDockerContainer, App.startDockerContainer,
    App.waitForContainerToFinish, App.publishFeedback.
  project.
  destruct (createContainer_reply (engine n)); project; auto.
  destruct (start_reply (engine n)); project; auto.
  rewrite Hp, Hc.
  destruct (snd (App.captureContainerResultFromLogs host engine n)); project; auto.
  destruct (wait_reply (engine n)) as [code|e|]; project; auto.
  destruct (code =? 0)%Z; auto.
Qed.

(** How the capture ends, by the replies to the two [attach] calls. *)
Lemma snd_capture (c : container) :
  snd (App.captureContainerResultFromLogs host engine c)
  = match attach_stdout_reply (engine c), attach_stderr_reply (engine c) with
    | Fulfils out, Fulfils _ =>
        App.collectStdout (Buffer_toString host) out EmptyString
    | Rejects _, _ | _, Rejects _ => Fulfilled None
    | _, _ => Pending
    end.
Proof.
  unfold App.captureContainerResultFromLogs, App.pipe_to_stderr, App.attach_both.
  project.
  destruct (attach_stdout_reply (engine c)), (attach_stderr_reply (engine c));
    reflexivity.
Qed.

(** How one run ends, by the replies of the engine. *)
Lemma snd_run_container (n : nat) (jobConfig : JobConfig) :
  snd (App.run_container host engine n jobConfig)
  = match createContainer_reply (engine n) with
    | Fulfils _ =>
        match start_reply (engine n) with
        | Fulfils _ =>
            match snd (App.captureContainerResultFromLogs host engine n) with
            | Fulfilled containerResult =>
                match wait_reply (engine n) with
                | Fulfils StatusCode =>
                    if (StatusCode =? 0)%Z then Fulfilled containerResult
                    else Rejected
                           (Error ("Puppeteer script execution failed with exit code "
                                   ++ JsString.of_Z StatusCode))
                | Rejects e => Rejected e
                | NeverSettles => Pending
                end
            | Rejected e => Rejected e
            | Pending => Pending
            | Uncaught e => Uncaught e
            | OutOfFuel => OutOfFuel
            end
        | Rejects e => Rejected e
        | NeverSettles => Pending
        end
    | Rejects e => Rejected e
    | NeverSettles => Pending
    end.
Proof.
  unfold App.run_container, App.createDockerContainer, App.startDockerContainer,
    App.waitForContainerToFinish, App.publishFeedback.
  project.
  destruct (createContainer_reply (engine n)); project; auto.
  destruct (start_reply (engine n)); project; auto.
  destruct (snd (App.captureContainerResultFromLogs host engine n)); project; auto.
  destruct (wait_reply (engine n)) as [code|e|]; project; auto.
  destruct (code =? 0)%Z; auto.
Qed.

Lemma collectStdout_outcomes (toString : list Byte.byte -> string)
    (events : list stream_event) (stdoutData : string) :
  match App.collectStdout toString events stdoutData with
  | Fulfilled (Some _) | Rejected _ | Pending => True
  | _ => False
  end.
Proof.
  revert stdoutData.
  induction events as [|[chunk| |e] events IH]; intros stdoutData; simpl;
    [exact I | apply IH | exact I | exact I].
Qed.

(** One run does not recurse: it never lacks fuel. *)
Lemma run_container_has_fuel (n : nat) (jobConfig : JobConfig) :
  snd (App.run_container host engine n jobConfig) <> OutOfFuel.
Proof.
  rewrite snd_run_container, snd_capture.
  destruct (createContainer_reply (engine n)); try discriminate.
  destruct (start_reply (engine n)); try discriminate.
  assert (W : forall r : option string,
             match wait_reply (engine n) with
             | Fulfils StatusCode =>
                 if (StatusCode =? 0)%Z then Fulfilled r
                 else Rejected
                        (Error ("Puppeteer script execution failed with exit code "
                                ++ JsString.of_Z StatusCode))
             | Rejects e => Rejected e
             | NeverSettles => Pending
             end <> OutOfFuel).
  { intros r. destruct (wait_reply (engine n)) as [code|e|]; try discriminate.
    destruct (code =? 0)%Z; discriminate. }
  destruct (attach_stdout_reply (engine n)) as [out|e1|],
           (attach_stderr_reply (engine n)) as [err|e2|];
    try discriminate; try apply W.
  pose proof (collectStdout_outcomes (Buffer_toString host) out EmptyString) as C.
  destruct (App.collectStdout (Buffer_toString host) out EmptyString) as [[r|]| | | |];
    try discriminate; try contradiction. apply W.
Qed.

Lemma get_prop_jobConfig (dir : value) :
  get_prop (App.value_of_JobConfig (App.jobConfig_of dir)) "programDirectory"
  = Normal dir.
Proof. reflexivity. Qed.

(** How [runDockerCommand] ends: the outcome of the run, unless the run
    is rejected with the shape of a missing image; then the pull decides. *)
Lemma snd_runDockerCommand (fuel n : nat) (jobParams : value) :
  snd (App.runDockerCommand host engine (S fuel) n jobParams)
  = match get_prop jobParams "programDirectory" with
    | Throw e => Rejected e
    | Normal dir =>
        match snd (App.run_container host engine n (App.jobConfig_of dir)) with
        | Rejected err =>
            match App.image_not_found err with
            | Throw e => Rejected e
            | Normal false => Rejected err
            | Normal true =>
                match pull (engine n) with
                | PullThrows e => Rejected e
                | PullCallbackNever => Pending
                | PullCallbackError e => Uncaught e
                | PullProgressNever => Pending
                | PullFinished (Some _) => Pending
                | PullFinished None =>
                    snd (App.runDockerCommand host engine fuel (S n)
                           (App.value_of_JobConfig (App.jobConfig_of dir)))
                end
            end
        | other => other
        end
    end.
Proof.
  cbn [App.runDockerCommand]. unfold App.handleImageNotFoundThenRetry, App.publishFeedback.
  destruct (get_prop jobParams "programDirectory") as [dir|e]; project; auto.
  destruct (snd (App.run_container host engine n (App.jobConfig_of dir)))
    as [r|e| |e|]; auto.
  destruct (App.image_not_found e) as [[|]|e']; project; auto.
  destruct (pull (engine n)) as [e'|  |e'| |[e'|]]; project; auto.
Qed.

(** The events of [runDockerCommand]: those of the run, then the pull and
    what follows it. *)
Lemma fst_runDockerCommand (fuel n : nat) (jobParams : value) :
  fst (App.runDockerCommand host engine (S fuel) n jobParams)
  = match get_prop jobParams "programDirectory" with
    | Throw e => []
    | Normal dir =>
        (fst (App.run_container host engine n (App.jobConfig_of dir)) ++
         match snd (App.run_container host engine n (App.jobConfig_of dir)) with
         | Rejected err =>
             match App.image_not_found err with
             | Normal true =>
                 EvPull App.IMAGE ::
                 match pull (engine n) with
                 | PullFinished (Some e) => [EvLogError "Error pulling Docker image:" e]
                 | PullFinished None =>
                     fst (App.runDockerCommand host engine fuel (S n)
                            (App.value_of_JobConfig (App.jobConfig_of dir)))
                 | _ => []
                 end
             | _ => []
             end
         | _ => []
         end)%list
    end.
Proof.
  cbn [App.runDockerCommand]. unfold App.handleImageNotFoundThenRetry, App.publishFeedback.
  destruct (get_prop jobParams "programDirectory") as [dir|e]; project; auto.
  cbn [app]. f_equal.
  destruct (snd (App.run_container host engine n (App.jobConfig_of dir)))
    as [r|e| |e|]; auto.
  destruct (App.image_not_found e) as [[|]|e']; project; auto.
  destruct (pull (engine n)) as [e'|  |e'| |[e'|]]; project; auto.
Qed.

End OrchestratorFacts.

Section JobFacts.

Import AsyncM.
Variable host : Host.
Variable engine : Engine.

(** [runDockerCommand] reads its argument through [programDirectory] only. *)
Lemma runDockerCommand_ext (fuel n : nat) (p q : value) :
  get_prop p "programDirectory" = get_prop q "programDirectory" ->
  App.runDockerCommand host engine fuel n p = App.runDockerCommand host engine fuel n q.
Proof.
  intros H. destruct fuel; [reflexivity|].
  cbn [App.runDockerCommand]. now rewrite H.
Qed.

(** The accumulation of [collectStdout] is the text of the data received
    before the stream ends. *)
Lemma collectStdout_fulfilled (toString : list Byte.byte -> string)
    (events : list stream_event) (stdoutData : string) (result : option string) :
  App.collectStdout toString events stdoutData = Fulfilled result ->
  exists chunks,
    data_until_end events = Some chunks /\
    result = Some (stdoutData ++ text_of toString chunks).
Proof.
  revert stdoutData.
  induction events as [|[chunk| |e] events IH]; intros stdoutData H;
    simpl in H; try discriminate.
  - destruct (IH _ H) as [chunks [Hd ->]].
    exists (chunk :: chunks). simpl. rewrite Hd. split; [reflexivity|].
    now rewrite append_assoc.
  - injection H as <-. exists []. simpl. now rewrite append_empty_r.
Qed.

Lemma collectStdout_complete (toString : list Byte.byte -> string)
    (events : list stream_event) (stdoutData : string) (chunks : list (list Byte.byte)) :
  data_until_end events = Some chunks ->
  App.collectStdout toString events stdoutData
  = Fulfilled (Some (stdoutData ++ text_of toString chunks)).
Proof.
  revert stdoutData chunks.
  induction events as [|[chunk| |e] events IH]; intros stdoutData chunks H;
    simpl in H; try discriminate.
  - destruct (data_until_end events) as [rest|]; [|discriminate].
    injection H as <-. simpl. rewrite (IH _ rest eq_refl).
    now rewrite append_assoc.
  - injection H as <-. simpl. now rewrite append_empty_r.
Qed.

(** A capture that yields a text attached to standard output and saw
    its stream end. *)
Lemma capture_text (c : container) (text : string) :
  snd (App.captureContainerResultFromLogs host engine c) = Fulfilled (Some text) ->
  exists events chunks,
    attach_stdout_reply (engine c) = Fulfils events /\
    data_until_end events = Some chunks /\
    text = text_of (Buffer_toString host) chunks.
Proof.
  rewrite snd_capture.
  destruct (attach_stdout_reply (engine c)) as [out|e1|],
           (attach_stderr_reply (engine c)) as [err|e2|];
    intros H; try discriminate.
  destruct (collectStdout_fulfilled _ _ _ _ H) as [chunks [Hd Ht]].
  injection Ht as ->. now exists out, chunks.
Qed.

(** A fulfilled run went through every stage and ended with exit code 0. *)
Lemma run_container_fulfilled (n : nat) (jobConfig : JobConfig) (result : option string) :
  snd (App.run_container host engine n jobConfig) = Fulfilled result ->
  createContainer_reply (engine n) = Fulfils tt /\
  start_reply (engine n) = Fulfils tt /\
  snd (App.captureContainerResultFromLogs host engine n) = Fulfilled result /\
  wait_reply (engine n) = Fulfils 0%Z.
Proof.
  rewrite snd_run_container.
  destruct (createContainer_reply (engine n)) as [[]|e|]; try discriminate.
  destruct (start_reply (engine n)) as [[]|e|]; try discriminate.
  destruct (snd (App.captureContainerResultFromLogs host engine n));
    try discriminate.
  destruct (wait_reply (engine n)) as [code|e|]; try discriminate.
  destruct (Z.eqb_spec code 0); try discriminate.
  intros H. injection H as <-. subst code. auto.
Qed.

(** The handler on a valid request: the outcome of the job becomes the
    response. *)
Lemma startScrapperJob_valid (fuel : nat) (params : value)
    (v : Validation.validation) :
  Validation.validateParams host params = Normal v ->
  Validation.isValid v = true ->
  App.startScrapperJob host engine fuel params
  = match App.runDockerCommand host engine fuel 0 params with
    | (t, Fulfilled result) =>
        (t, Fulfilled {| status := 200; body := inr result |})
    | (t, Rejected err) =>
        ((t ++ [EvLogError "Failed to execute Docker command:" err])%list,
         Fulfilled {| status := 500;
                      body := inl (Some ("Puppeteer script execution failed: "
                                         ++ message err)) |})
    | other => (fst other, match snd other with
                           | Pending => Pending
                           | Uncaught e => Uncaught e
                           | _ => OutOfFuel
                           end)
    end.
Proof.
  intros Hv Hok. unfold App.startScrapperJob. rewrite Hv.
  unfold lift, bind at 1, ret. cbn [app]. rewrite Hok. cbn [negb].
  destruct (App.runDockerCommand host engine fuel 0 params) as [t [r|e| |e|]];
    unfold bind, catch, ret, emit; cbn; rewrite ?app_nil_r; reflexivity.
Qed.

(** After [k] runs that each end in a pull and a retry, the job goes on
    as the call number [n + k]; the trace has gained [k] pulls and [k]
    creations. *)
Lemma runDockerCommand_retries (dir : value) (k fuel n : nat) (jobParams : value) :
  get_prop jobParams "programDirectory" = Normal dir ->
  (forall i, n <= i < n + k -> pulled_and_retried host engine dir i) ->
  let first := App.runDockerCommand host engine (k + fuel) n jobParams in
  let rest := App.runDockerCommand host engine fuel (n + k) jobParams in
  snd first = snd rest /\
  pulls (fst first) = k + pulls (fst rest) /\
  creations (fst first) = k + creations (fst rest).
Proof.
  revert n jobParams.
  induction k as [|k IH]; intros n jobParams Hdir Hretry; cbn zeta.
  - rewrite Nat.add_0_r. auto.
  - destruct (Hretry n ltac:(lia)) as (e & Hrun & Habsent & Hpull).
    destruct (run_container_counts host engine n (App.jobConfig_of dir)) as [Hp Hc].
    destruct (IH (S n) (App.value_of_JobConfig (App.jobConfig_of dir))
                (get_prop_jobConfig dir)
                ltac:(intros i Hi; apply Hretry; lia)) as (Ho & Hpulls & Hcreations).
    rewrite (runDockerCommand_ext fuel (S n + k) _ jobParams) in Ho, Hpulls, Hcreations
      by now rewrite get_prop_jobConfig.
    replace (n + S k) with (S n + k) by lia.
    cbn [Nat.add].
    rewrite snd_runDockerCommand, fst_runDockerCommand, Hdir, Hrun.
    rewrite Habsent, Hpull.
    rewrite pulls_app, creations_app, Hp, Hc.
    change (EvPull App.IMAGE :: ?l) with ([EvPull App.IMAGE] ++ l)%list.
    rewrite pulls_app, creations_app, Hpulls, Hcreations.
    split; [exact Ho|]. split; reflexivity.
Qed.

End JobFacts.

(* ================================================================= *)
(** ** Image recovery *)

Lemma image_not_found_shape (e : error) :
  App.image_not_found e = Normal true <-> no_such_image_shape e.
Proof.
  unfold App.image_not_found, no_such_image_shape.
  destruct (statusCode e) as [code|].
  - destruct (Z.eqb_spec code 404) as [->|Hne].
    + destruct (json e) as [| |m].
      * split; [discriminate | intros (_ & m & H & _); discriminate].
      * split; [discriminate | intros (_ & m & H & _); discriminate].
      * split.
        -- intros H. injection H as H. split; [reflexivity|]. now exists m.
        -- intros (_ & m' & H & Hm). injection H as <-. now rewrite Hm.
    + split; [discriminate | intros (H & _); congruence].
  - split; [discriminate | intros (H & _); discriminate].
Qed.

(** C2, as the claim states it, fails: the image is reported missing by
    the first run and again by the retried run; each time the pull
    succeeds.  The job then pulls twice and creates three containers. *)
Lemma second_missing_image_pulls_again :
  let engine :=
    Scenario.script [Scenario.image_missing (PullFinished None);
                     Scenario.image_missing (PullFinished None)]
                    (Scenario.run ["done"] [] 0) in
  let job := App.startScrapperJob PosixFs.demo_host engine 3 (Scenario.job "job1") in
  pulls (fst job) = 2 /\
  creations (fst job) = 3 /\
  snd job = Fulfilled {| status := 200; body := inr (Some "done") |}.
Proof. vm_compute. repeat split. Qed.

(** C2, amended: every run that fails with the shape of a missing image
    triggers one pull, and when that pull finishes without error it is
    followed by one more run; nothing bounds the number of such rounds.
    A job whose first [k] runs end that way (missing image, clean pull),
    and whose next run does not, creates exactly [k + 1] containers.  It
    pulls exactly [k] times when that next run is not a missing-image
    failure, and exactly [k + 1] times when it is one (the pull of that
    run then not finishing cleanly). *)
Theorem one_pull_per_missing_image
    (host : Host) (engine : Engine) (dir : value) (k fuel : nat) (jobParams : value) :
  get_prop jobParams "programDirectory" = Normal dir ->
  (forall i, i < k -> pulled_and_retried host engine dir i) ->
  ~ pulled_and_retried host engine dir k ->
  let job := App.runDockerCommand host engine (k + S fuel) 0 jobParams in
  let last := snd (App.run_container host engine k (App.jobConfig_of dir)) in
  creations (fst job) = S k /\
  snd job <> OutOfFuel /\
  ((forall e, last = Rejected e -> App.image_not_found e <> Normal true) ->
     pulls (fst job) = k) /\
  (forall e, last = Rejected e -> App.image_not_found e = Normal true ->
     pulls (fst job) = S k).
Proof.
  intros Hdir Hretry Hlast job last.
  destruct (runDockerCommand_retries host engine dir k (S fuel) 0 jobParams Hdir
              ltac:(intros i Hi; apply Hretry; lia)) as (Ho & Hp & Hc).
  fold job in Ho, Hp, Hc. cbn [Nat.add] in Ho, Hp, Hc.
  rewrite Ho, Hp, Hc.
  rewrite snd_runDockerCommand, fst_runDockerCommand, Hdir.
  destruct (run_container_counts host engine k (App.jobConfig_of dir)) as [Hrp Hrc].
  pose proof (run_container_has_fuel host engine k (App.jobConfig_of dir)) as Hfuel.
  rewrite pulls_app, creations_app, Hrp, Hrc.
  subst last.
  destruct (snd (App.run_container host engine k (App.jobConfig_of dir)))
    as [r|e| |e|] eqn:Hrun; try contradiction;
    try (split; [cbn; lia|]; split; [discriminate|];
         split; [intros _; cbn; lia | intros e0 H; discriminate H]).
  destruct (App.image_not_found e) as [[|]|e'] eqn:Habsent.
  - assert (Hpull : pull (engine k) <> PullFinished None).
    { intros Hpull. apply Hlast. exists e. now rewrite Hrun. }
    destruct (pull (engine k)) as [e'|  |e'| |[e'|]]; try contradiction;
      (split; [cbn; lia|]; split; [discriminate|];
       split; [intros H; exfalso; exact (H e eq_refl Habsent)
              | intros e0 _ _; cbn; lia]).
  - split; [cbn; lia|]. split; [discriminate|].
    split; [intros _; cbn; lia|].
    intros e0 H Hab. injection H as <-. congruence.
  - split; [cbn; lia|]. split; [discriminate|].
    split; [intros _; cbn; lia|].
    intros e0 H Hab. injection H as <-. congruence.
Qed.

Lemma one_pull_per_missing_image_witness :
  let engine :=
    Scenario.script
      [Scenario.image_missing (PullFinished None);
       Scenario.image_missing (PullFinished (Some (Error "manifest unknown")))]
      (Scenario.run ["done"] [] 0) in
  let job := App.runDockerCommand PosixFs.demo_host engine (1 + 1) 0
               (Scenario.job "job1") in
  creations (fst job) = 2 /\ snd job <> OutOfFuel /\ pulls (fst job) = 2.
Proof.
  destruct (one_pull_per_missing_image PosixFs.demo_host
              (Scenario.script
                 [Scenario.image_missing (PullFinished None);
                  Scenario.image_missing (PullFinished (Some (Error "manifest unknown")))]
                 (Scenario.run ["done"] [] 0))
              (VStr "job1") 1 0 (Scenario.job "job1")) as (Hc & Hf & _ & Hp).
  - reflexivity.
  - intros i Hi. exists Scenario.no_such_image.
    destruct i as [|i]; [now vm_compute | lia].
  - intros (e & _ & _ & Hpull). vm_compute in Hpull. discriminate.
  - split; [exact Hc|]. split; [exact Hf|].
    apply (Hp Scenario.no_such_image); reflexivity.
Defined.

(** The same on a job that settles without a failed pull: two rounds, then
    a run that succeeds. *)
Example two_rounds_then_success :
  let engine :=
    Scenario.script [Scenario.image_missing (PullFinished None);
                     Scenario.image_missing (PullFinished None)]
                    (Scenario.run ["done"] [] 0) in
  let job := App.runDockerCommand PosixFs.demo_host engine (2 + 1) 0
               (Scenario.job "job1") in
  pulls (fst job) = 2 /\ creations (fst job) = 3 /\
  snd job = Fulfilled (Some "done").
Proof. vm_compute. repeat split. Qed.

(** C3, as the claim states it, fails: the container is created, and
    starting it fails with a 404 error whose message includes
    [No such image].  The failure does not come from the creation, yet the
    job pulls the image and runs again. *)
Lemma start_failure_triggers_pull :
  let engine :=
    Scenario.script [Scenario.start_fails Scenario.no_such_image (PullFinished None)]
                    (Scenario.run ["done"] [] 0) in
  let job := App.startScrapperJob PosixFs.demo_host engine 2 (Scenario.job "job1") in
  createContainer_reply (engine 0) = Fulfils tt /\
  start_reply (engine 0) = Rejects Scenario.no_such_image /\
  pulls (fst job) = 1 /\
  snd job = Fulfilled {| status := 200; body := inr (Some "done") |}.
Proof. vm_compute. repeat split. Qed.

(** C3, amended: the [try] block encloses the creation, the start, the
    capture and the wait, and a failure of any of them is classified by
    its shape alone.  It leads to a pull exactly when its [statusCode] is
    404 and the message of its [json] includes [No such image]; a failure
    of any other shape rejects the job with no pull. *)
Theorem missing_image_is_decided_by_shape
    (host : Host) (engine : Engine) (fuel n : nat) (jobParams dir : value) (e : error) :
  get_prop jobParams "programDirectory" = Normal dir ->
  snd (App.run_container host engine n (App.jobConfig_of dir)) = Rejected e ->
  let run := App.run_container host engine n (App.jobConfig_of dir) in
  let job := App.runDockerCommand host engine (S fuel) n jobParams in
  (no_such_image_shape e ->
     exists rest, fst job = (fst run ++ EvPull App.IMAGE :: rest)%list) /\
  (~ no_such_image_shape e ->
     fst job = fst run /\ pulls (fst job) = 0 /\ exists e', snd job = Rejected e').
Proof.
  intros Hdir Hrun run job. subst run job.
  rewrite snd_runDockerCommand, fst_runDockerCommand, Hdir, Hrun.
  split.
  - intros Hshape. apply image_not_found_shape in Hshape. rewrite Hshape.
    eexists. reflexivity.
  - intros Hshape.
    assert (Hnot : App.image_not_found e <> Normal true)
      by (intros H; now apply Hshape, image_not_found_shape).
    destruct (run_container_counts host engine n (App.jobConfig_of dir)) as [Hp _].
    destruct (App.image_not_found e) as [[|]|e']; try contradiction;
      rewrite app_nil_r; (repeat split; [exact Hp | eexists; reflexivity]).
Qed.

Lemma missing_image_is_decided_by_shape_witness :
  let engine :=
    Scenario.script [Scenario.start_fails Scenario.no_such_image (PullFinished None)]
                    (Scenario.run ["done"] [] 0) in
  let run := App.run_container PosixFs.demo_host engine 0 (App.jobConfig_of (VStr "job1")) in
  let job := App.runDockerCommand PosixFs.demo_host engine 2 0 (Scenario.job "job1") in
  (no_such_image_shape Scenario.no_such_image ->
     exists rest, fst job = (fst run ++ EvPull App.IMAGE :: rest)%list) /\
  (~ no_such_image_shape Scenario.no_such_image ->
     fst job = fst run /\ pulls (fst job) = 0 /\ exists e', snd job = Rejected e').
Proof.
  apply (missing_image_is_decided_by_shape PosixFs.demo_host
           (Scenario.script
              [Scenario.start_fails Scenario.no_such_image (PullFinished None)]
              (Scenario.run ["done"] [] 0))
           1 0 (Scenario.job "job1") (VStr "job1") Scenario.no_such_image);
    reflexivity.
Defined.

(** An error of another shape, at the creation: no pull, status 500. *)
Example other_creation_failure :
  let refused := {| message := "(HTTP code 500) server error - boom";
                    statusCode := Some 500%Z;
                    json := JsonMessage "No such image: x" |} in
  let engine :=
    Scenario.script [] {| createContainer_reply := Rejects refused;
                          start_reply := NeverSettles;
                          attach_stdout_reply := NeverSettles;
                          attach_stderr_reply := NeverSettles;
                          stderr_attach_settles_first := false;
                          wait_reply := NeverSettles;
                          pull := PullFinished None |} in
  let job := App.startScrapperJob PosixFs.demo_host engine 2 (Scenario.job "job1") in
  pulls (fst job) = 0 /\
  snd job = Fulfilled
              {| status := 500;
                 body := inl (Some "Puppeteer script execution failed: (HTTP code 500) server error - boom") |}.
Proof. vm_compute. repeat split. Qed.

(** A pull that finishes with an error leaves the job pending, on every
    host and engine. *)
Lemma failed_pull_never_settles
    (host : Host) (engine : Engine) (fuel n : nat) (jobParams dir : value)
    (e err : error) :
  get_prop jobParams "programDirectory" = Normal dir ->
  snd (App.run_container host engine n (App.jobConfig_of dir)) = Rejected e ->
  App.image_not_found e = Normal true ->
  pull (engine n) = PullFinished (Some err) ->
  snd (App.runDockerCommand host engine (S fuel) n jobParams) = Pending.
Proof.
  intros Hdir Hrun Habsent Hpull.
  now rewrite snd_runDockerCommand, Hdir, Hrun, Habsent, Hpull.
Qed.

(** A failed [attach] makes the capture return [undefined], on every host
    and engine. *)
Lemma failed_attach_is_swallowed
    (host : Host) (engine : Engine) (c : container) (e : error) :
  attach_stdout_reply (engine c) = Rejects e ->
  snd (App.captureContainerResultFromLogs host engine c) = Fulfilled None.
Proof.
  intros H. rewrite snd_capture, H.
  now destruct (attach_stderr_reply (engine c)).
Qed.

(** An error handed to the callback of [docker.pull] is thrown inside the
    callback, outside every [try]: no version of the file answers. *)
Example pull_callback_error_is_uncaught :
  let refused := Error "connect ENOENT /var/run/docker.sock" in
  let engine :=
    Scenario.script [Scenario.image_missing (PullCallbackError refused)]
                    (Scenario.run ["done"] [] 0) in
  snd (App.startScrapperJob PosixFs.demo_host engine 2 (Scenario.job "job1"))
    = Uncaught refused /\
  snd (Revised.startScrapperJob PosixFs.demo_host engine 2 (Scenario.job "job1"))
    = Uncaught refused.
Proof. split; reflexivity. Qed.

(** C4, at a failing input: the image is missing, the pull is started and
    its progress ends with an error.  [onFinished] logs the error and
    returns: the promise of [handleImageNotFoundThenRetry] stays pending
    and the request is never answered, whatever the fuel.  The second
    version of the file rejects there, and the caller gets status 500. *)
Theorem failed_pull_leaves_request_pending :
  let refused := Error "manifest unknown" in
  let engine :=
    Scenario.script [Scenario.image_missing (PullFinished (Some refused))]
                    (Scenario.run ["done"] [] 0) in
  forall fuel : nat,
    App.startScrapperJob PosixFs.demo_host engine (S fuel) (Scenario.job "job1")
    = ([EvCreateContainer App.IMAGE (App.jobConfig_of (VStr "job1"));
        EvPull App.IMAGE;
        EvLogError "Error pulling Docker image:" refused],
       Pending)
    /\ snd (Revised.startScrapperJob PosixFs.demo_host engine (S fuel) (Scenario.job "job1"))
       = Fulfilled {| status := 500;
                      body := inl (Some "Puppeteer script execution failed: manifest unknown") |}.
Proof. intros refused engine fuel. split; reflexivity. Qed.

(** C5, at a failing input: both [attach] calls fail, the container exits
    with code 0.  The [catch] of [captureContainerResultFromLogs] logs the
    error and lets the function return [undefined]: the caller gets status
    200 with no result.  The second version of the file throws the error
    again, and the caller gets status 500. *)
Theorem failed_attach_is_answered_200 :
  let refused := Error "connect ECONNREFUSED /var/run/docker.sock" in
  let engine := Scenario.script [] (Scenario.attach_fails refused) in
  forall fuel : nat,
    App.startScrapperJob PosixFs.demo_host engine (S fuel) (Scenario.job "job1")
    = ([EvCreateContainer App.IMAGE (App.jobConfig_of (VStr "job1"));
        EvStart 0; EvAttach 0 true false; EvAttach 0 false true;
        EvLogError "Error attaching to Docker container streams:" refused;
        EvWait 0],
       Fulfilled {| status := 200; body := inr None |})
    /\ snd (Revised.startScrapperJob PosixFs.demo_host engine (S fuel) (Scenario.job "job1"))
       = Fulfilled {| status := 500;
                      body := inl (Some "Puppeteer script execution failed: connect ECONNREFUSED /var/run/docker.sock") |}.
Proof. intros refused engine fuel. split; reflexivity. Qed.

(** A stream error during the capture does reach the caller as status 500. *)
Example stream_error_is_answered_500 :
  let broken := Error "read ECONNRESET" in
  let engine :=
    Scenario.script []
      {| createContainer_reply := Fulfils tt;
         start_reply := Fulfils tt;
         attach_stdout_reply := Fulfils [Data (Scenario.bytes "do"); StreamError broken; End];
         attach_stderr_reply := Fulfils [];
         stderr_attach_settles_first := false;
         wait_reply := Fulfils 0%Z;
         pull := PullFinished None |} in
  snd (App.startScrapperJob PosixFs.demo_host engine 1 (Scenario.job "job1"))
  = Fulfilled {| status := 500;
                 body := inl (Some "Puppeteer script execution failed: read ECONNRESET") |}.
Proof. vm_compute. reflexivity. Qed.

(* ================================================================= *)
(** ** Exit status and captured output *)

(** C6: when a run is created, started and captured, and the container
    reports its exit code, the caller gets status 200 with the captured
    result if and only if the code is 0; for any other code the caller gets
    status 500 and the message contains the decimal text of the code.  The
    run may be the first one or follow [k] rounds of pull and retry. *)
Theorem exit_code_decides_response
    (host : Host) (engine : Engine) (k fuel : nat) (params dir : value)
    (v : Validation.validation) (result : option string) (StatusCode : Z) :
  Validation.validateParams host params = Normal v ->
  Validation.isValid v = true ->
  get_prop params "programDirectory" = Normal dir ->
  (forall i, i < k -> pulled_and_retried host engine dir i) ->
  createContainer_reply (engine k) = Fulfils tt ->
  start_reply (engine k) = Fulfils tt ->
  snd (App.captureContainerResultFromLogs host engine k) = Fulfilled result ->
  wait_reply (engine k) = Fulfils StatusCode ->
  let response := snd (App.startScrapperJob host engine (k + S fuel) params) in
  (StatusCode = 0%Z ->
     response = Fulfilled {| status := 200; body := inr result |}) /\
  (StatusCode <> 0%Z ->
     exists msg,
       response = Fulfilled {| status := 500; body := inl (Some msg) |} /\
       JsString.includes msg (JsString.of_Z StatusCode) = true) /\
  (exists r, response = Fulfilled r /\ (status r = 200%Z <-> StatusCode = 0%Z)).
Proof.
  intros Hv Hok Hdir Hretry Hcreate Hstart Hcapture Hwait response.
  assert (Hjob : snd (App.runDockerCommand host engine (k + S fuel) 0 params)
                 = if (StatusCode =? 0)%Z then Fulfilled result
                   else Rejected
                          (Error ("Puppeteer script execution failed with exit code "
                                  ++ JsString.of_Z StatusCode))).
  { destruct (runDockerCommand_retries host engine dir k (S fuel) 0 params Hdir
                ltac:(intros i Hi; apply Hretry; lia)) as (Ho & _).
    cbn [Nat.add] in Ho. rewrite Ho.
    rewrite snd_runDockerCommand, Hdir, snd_run_container.
    rewrite Hcreate, Hstart, Hcapture, Hwait.
    destruct (StatusCode =? 0)%Z; reflexivity. }
  assert (Hresp : response
                  = if (StatusCode =? 0)%Z
                    then Fulfilled {| status := 200; body := inr result |}
                    else Fulfilled
                           {| status := 500;
                              body := inl (Some ("Puppeteer script execution failed: "
                                ++ "Puppeteer script execution failed with exit code "
                                ++ JsString.of_Z StatusCode)) |}).
  { subst response. rewrite (startScrapperJob_valid host engine _ params v Hv Hok).
    destruct (App.runDockerCommand host engine (k + S fuel) 0 params) as [t o].
    cbn [snd] in Hjob. subst o. destruct (StatusCode =? 0)%Z; reflexivity. }
  rewrite Hresp. destruct (Z.eqb_spec StatusCode 0) as [Hz|Hnz].
  - split; [reflexivity|]. split; [contradiction|].
    eexists. split; [reflexivity|]. cbn. tauto.
  - split; [contradiction|]. split.
    + intros _. eexists. split; [reflexivity|].
      rewrite <- append_assoc. apply includes_suffix.
    + eexists. split; [reflexivity|]. cbn. split; [discriminate | contradiction].
Qed.

Lemma exit_code_decides_response_witness :
  let engine :=
    Scenario.script [Scenario.image_missing (PullFinished None)]
                    (Scenario.run ["out"] ["warn"] 137) in
  let response :=
    snd (App.startScrapperJob PosixFs.demo_host engine (1 + 1) (Scenario.job "job1")) in
  (137%Z = 0%Z ->
     response = Fulfilled {| status := 200; body := inr (Some "out") |}) /\
  (137%Z <> 0%Z ->
     exists msg,
       response = Fulfilled {| status := 500; body := inl (Some msg) |} /\
       JsString.includes msg (JsString.of_Z 137) = true) /\
  (exists r, response = Fulfilled r /\ (status r = 200%Z <-> 137%Z = 0%Z)).
Proof.
  apply (exit_code_decides_response PosixFs.demo_host
           (Scenario.script [Scenario.image_missing (PullFinished None)]
                            (Scenario.run ["out"] ["warn"] 137))
           1 0 (Scenario.job "job1") (VStr "job1")
           {| Validation.isValid := true; Validation.error_of := None |}
           (Some "out") 137).
  - reflexivity.
  - reflexivity.
  - reflexivity.
  - intros i Hi. exists Scenario.no_such_image.
    destruct i as [|i]; [now vm_compute | lia].
  - reflexivity.
  - reflexivity.
  - reflexivity.
  - reflexivity.
Defined.

Example exit_code_1 :
  snd (App.startScrapperJob PosixFs.demo_host
         (Scenario.script [] (Scenario.run ["out"] [] 1)) 1 (Scenario.job "job1"))
  = Fulfilled {| status := 500;
                 body := inl (Some "Puppeteer script execution failed: Puppeteer script execution failed with exit code 1") |}.
Proof. vm_compute. reflexivity. Qed.

Section CaptureFacts.

Import AsyncM.
Variable host : Host.
Variable engine : Engine.

Lemma fst_capture_attached (c : container)
    (out : list stream_event) (errs : list (list Byte.byte)) :
  attach_stdout_reply (engine c) = Fulfils out ->
  attach_stderr_reply (engine c) = Fulfils errs ->
  fst (App.captureContainerResultFromLogs host engine c)
  = EvAttach c true false :: EvAttach c false true :: map EvStderrWrite errs.
Proof.
  intros Ho He.
  unfold App.captureContainerResultFromLogs, App.pipe_to_stderr, App.attach_both.
  rewrite Ho, He. project. reflexivity.
Qed.

Lemma fst_run_container_started (n : nat) (jobConfig : JobConfig) :
  createContainer_reply (engine n) = Fulfils tt ->
  start_reply (engine n) = Fulfils tt ->
  exists rest,
    fst (App.run_container host engine n jobConfig)
    = (EvCreateContainer App.IMAGE jobConfig :: EvStart n ::
       fst (App.captureContainerResultFromLogs host engine n) ++ rest)%list.
Proof.
  intros Hc Hs.
  unfold App.run_container, App.createDockerContainer, App.startDockerContainer.
  rewrite Hc. project. rewrite Hs. project. cbn [app]. eexists. reflexivity.
Qed.

(** The text a job returns is the standard output of one of its runs,
    whose standard error went to the error stream of the host. *)
Lemma runDockerCommand_result (fuel n : nat) (jobParams : value) (text : string) :
  snd (App.runDockerCommand host engine fuel n jobParams) = Fulfilled (Some text) ->
  exists m events chunks errs,
    attach_stdout_reply (engine m) = Fulfils events /\
    data_until_end events = Some chunks /\
    text = text_of (Buffer_toString host) chunks /\
    attach_stderr_reply (engine m) = Fulfils errs /\
    wait_reply (engine m) = Fulfils 0%Z /\
    (forall chunk, In chunk errs ->
       In (EvStderrWrite chunk)
          (fst (App.runDockerCommand host engine fuel n jobParams))).
Proof.
  revert n jobParams.
  induction fuel as [|fuel IH]; intros n jobParams H; [discriminate|].
  rewrite snd_runDockerCommand in H. rewrite fst_runDockerCommand.
  destruct (get_prop jobParams "programDirectory") as [dir|e]; [|discriminate].
  destruct (snd (App.run_container host engine n (App.jobConfig_of dir)))
    as [r|e| |e|] eqn:Hrun; try discriminate.
  - injection H as ->.
    destruct (run_container_fulfilled _ _ _ _ _ Hrun) as (Hc & Hs & Hcap & Hwait).
    destruct (capture_text _ _ _ _ Hcap) as (events & chunks & Hout & Hd & Ht).
    destruct (attach_stderr_reply (engine n)) as [errs|e|] eqn:Herr.
    + exists n, events, chunks, errs. repeat split; try assumption.
      intros chunk Hin. apply in_or_app. left.
      destruct (fst_run_container_started n (App.jobConfig_of dir) Hc Hs) as [rest ->].
      rewrite (fst_capture_attached n events errs Hout Herr).
      right. right. right. right. apply in_or_app. left.
      now apply in_map.
    + rewrite snd_capture, Hout, Herr in Hcap. discriminate.
    + rewrite snd_capture, Hout, Herr in Hcap. discriminate.
  - destruct (App.image_not_found e) as [[|]|e']; try discriminate.
    destruct (pull (engine n)) as [e'|  |e'| |[e'|]]; try discriminate.
    destruct (IH _ _ H) as (m & events & chunks & errs & Ho & Hd & Ht & He & Hw & Hin).
    exists m, events, chunks, errs. repeat split; try assumption.
    intros chunk Hc. apply in_or_app. right. right. now apply Hin.
Qed.

(** Other bytes on standard error do not change how a job ends. *)
Lemma with_stderr_outcome (other : nat -> list (list Byte.byte))
    (fuel n : nat) (jobParams : value) :
  snd (App.runDockerCommand host (with_stderr other engine) fuel n jobParams)
  = snd (App.runDockerCommand host engine fuel n jobParams).
Proof.
  revert n jobParams.
  induction fuel as [|fuel IH]; intros n jobParams; [reflexivity|].
  rewrite !snd_runDockerCommand.
  destruct (get_prop jobParams "programDirectory") as [dir|e]; [|reflexivity].
  assert (Hrun : snd (App.run_container host (with_stderr other engine) n
                        (App.jobConfig_of dir))
                 = snd (App.run_container host engine n (App.jobConfig_of dir))).
  { rewrite !snd_run_container, !snd_capture. unfold with_stderr. cbn.
    destruct (attach_stderr_reply (engine n)); reflexivity. }
  rewrite Hrun.
  destruct (snd (App.run_container host engine n (App.jobConfig_of dir)));
    try reflexivity.
  destruct (App.image_not_found e) as [[|]|e']; try reflexivity.
  change (pull (with_stderr other engine n)) with (pull (engine n)).
  destruct (pull (engine n)) as [e'|  |e'| |[e'|]]; try reflexivity.
  apply IH.
Qed.

(** How the handler ends. *)
Lemma snd_startScrapperJob (fuel : nat) (params : value) :
  snd (App.startScrapperJob host engine fuel params)
  = match Validation.validateParams host params with
    | Throw e => Rejected e
    | Normal v =>
        if Validation.isValid v then
          match snd (App.runDockerCommand host engine fuel 0 params) with
          | Fulfilled result => Fulfilled {| status := 200; body := inr result |}
          | Rejected err =>
              Fulfilled {| status := 500;
                           body := inl (Some ("Puppeteer script execution failed: "
                                              ++ message err)) |}
          | Pending => Pending
          | Uncaught e => Uncaught e
          | OutOfFuel => OutOfFuel
          end
        else Fulfilled {| status := 400; body := inl (Validation.error_of v) |}
    end.
Proof.
  unfold App.startScrapperJob.
  destruct (Validation.validateParams host params) as [v|e]; project; [|reflexivity].
  destruct (Validation.isValid v); cbn [negb]; project; [|reflexivity].
  destruct (snd (App.runDockerCommand host engine fuel 0 params)); reflexivity.
Qed.

Lemma fst_startScrapperJob_200 (fuel : nat) (params : value) (b : option string + option string) :
  snd (App.startScrapperJob host engine fuel params)
    = Fulfilled {| status := 200; body := b |} ->
  fst (App.startScrapperJob host engine fuel params)
  = fst (App.runDockerCommand host engine fuel 0 params).
Proof.
  rewrite snd_startScrapperJob. unfold App.startScrapperJob.
  destruct (Validation.validateParams host params) as [v|e]; [|discriminate].
  project.
  destruct (Validation.isValid v); cbn [negb]; [|discriminate].
  project. cbn [app].
  destruct (snd (App.runDockerCommand host engine fuel 0 params));
    try discriminate. project. reflexivity.
Qed.

End CaptureFacts.

(** When the caller gets status 200 with a text, the text is the
    concatenation of the data chunks that the standard-output channel of
    one run delivered before it signalled its end, each decoded on arrival
    and in order; the container of that run exited with code 0.  The bytes
    of standard error have no part in it: that run wrote each of its
    standard-error chunks to the error stream of the host, and with any
    other bytes on standard error the response is the same. *)
Lemma returned_text_is_standard_output
    (host : Host) (engine : Engine) (fuel : nat) (params : value) (text : string) :
  snd (App.startScrapperJob host engine fuel params)
    = Fulfilled {| status := 200; body := inr (Some text) |} ->
  (exists m events chunks errs,
     attach_stdout_reply (engine m) = Fulfils events /\
     data_until_end events = Some chunks /\
     text = text_of (Buffer_toString host) chunks /\
     attach_stderr_reply (engine m) = Fulfils errs /\
     wait_reply (engine m) = Fulfils 0%Z /\
     (forall chunk, In chunk errs ->
        In (EvStderrWrite chunk) (fst (App.startScrapperJob host engine fuel params)))) /\
  (forall other : nat -> list (list Byte.byte),
     snd (App.startScrapperJob host (with_stderr other engine) fuel params)
     = Fulfilled {| status := 200; body := inr (Some text) |}).
Proof.
  intros H. split.
  - rewrite (fst_startScrapperJob_200 host engine fuel params _ H).
    rewrite snd_startScrapperJob in H.
    destruct (Validation.validateParams host params) as [v|e]; [|discriminate].
    destruct (Validation.isValid v); [|discriminate].
    destruct (snd (App.runDockerCommand host engine fuel 0 params)) as [r|e| |e|] eqn:Hjob;
      try discriminate.
    injection H as ->.
    exact (runDockerCommand_result host engine fuel 0 params text Hjob).
  - intros other. rewrite snd_startScrapperJob, with_stderr_outcome.
    now rewrite <- snd_startScrapperJob.
Qed.

(** C7, at a failing input: the container prints [done] on standard
    output, which attaches and ends regularly, and exits with code 0;
    attaching to standard error is rejected.  [Promise.all] rejects, the
    [catch] of [captureContainerResultFromLogs] only logs, and the function
    returns [undefined]: the job succeeds and the caller gets status 200,
    but the result is not the text [done] that standard output delivered.
    The second version of the file throws the error again: there the job
    fails with status 500 and no successful job is without its text. *)
Theorem swallowed_attach_loses_standard_output :
  let refused := Error "socket hang up" in
  let engine := Scenario.script [] (Scenario.stderr_attach_fails ["done"] refused) in
  attach_stdout_reply (engine 0) = Fulfils [Data (Scenario.bytes "done"); End] /\
  data_until_end [Data (Scenario.bytes "done"); End] = Some [Scenario.bytes "done"] /\
  text_of (Buffer_toString PosixFs.demo_host) [Scenario.bytes "done"] = "done" /\
  forall fuel : nat,
    App.startScrapperJob PosixFs.demo_host engine (S fuel) (Scenario.job "job1")
    = ([EvCreateContainer App.IMAGE (App.jobConfig_of (VStr "job1"));
        EvStart 0; EvAttach 0 true false; EvAttach 0 false true;
        EvLogError "Error attaching to Docker container streams:" refused;
        EvWait 0],
       Fulfilled {| status := 200; body := inr None |})
    /\ snd (Revised.startScrapperJob PosixFs.demo_host engine (S fuel) (Scenario.job "job1"))
       = Fulfilled {| status := 500;
                      body := inl (Some "Puppeteer script execution failed: socket hang up") |}.
Proof.
  intros refused engine.
  split; [reflexivity|]. split; [reflexivity|]. split; [reflexivity|].
  intros fuel. split; reflexivity.
Qed.

(* ================================================================= *)
(** * More of the service *)

(** ** The verdict of the validation *)

Section VerdictFacts.

Variable host : Host.

(** The two results a failed validation can carry. *)
Lemma validate_with_cases (invalid : string) (params : value) (v : Validation.validation) :
  Validation.validate_with host invalid params = Normal v ->
  exists dir,
    get_prop params "programDirectory" = Normal dir /\
    ((truthy dir = false /\
      v = {| Validation.isValid := false;
             Validation.error_of := Some "Error: programDirectory is required" |}) \/
     (truthy dir = true /\ Validation.isValidPartialPath host dir = false /\
      v = {| Validation.isValid := Validation.not_error (Some invalid);
             Validation.error_of := Some invalid |}) \/
     (truthy dir = true /\ Validation.isValidPartialPath host dir = true /\
      v = {| Validation.isValid := true; Validation.error_of := None |})).
Proof.
  intros H.
  destruct (get_prop params "programDirectory") as [dir|e] eqn:Hget.
  - exists dir. split; [reflexivity|].
    destruct (truthy dir) eqn:Ht.
    + rewrite (validate_with_truthy host invalid params dir Hget Ht) in H.
      destruct (Validation.isValidPartialPath host dir); injection H as <-; auto.
    + rewrite (validate_with_falsy host invalid params dir Hget Ht) in H.
      injection H as <-; auto.
  - unfold Validation.validate_with, Validation.requiredFields,
      Validation.check_required in H.
    rewrite Hget in H. discriminate.
Qed.

End VerdictFacts.

(** X1: a request that [validateParams] accepts has a [programDirectory]
    that is a string and is not empty, and the path test accepted it. *)
Theorem valid_request_has_string_directory
    (host : Host) (params : value) (v : Validation.validation) :
  Validation.validateParams host params = Normal v ->
  Validation.isValid v = true ->
  exists s,
    get_prop params "programDirectory" = Normal (VStr s) /\
    s <> EmptyString /\
    Validation.isValidPartialPath host (VStr s) = true.
Proof.
  intros Hv Hok.
  destruct (validate_with_cases host _ params v Hv)
    as (dir & Hget & [(_ & ->)|[(_ & _ & ->)|(Ht & Hp & _)]]); try discriminate.
  destruct dir as [| | | |s| |];
    try (rewrite (isValidPartialPath_not_string host) in Hp;
         [discriminate | intros s; discriminate]).
  exists s. repeat split; try assumption.
  intros ->. discriminate.
Qed.

Lemma valid_request_has_string_directory_witness :
  exists s,
    get_prop (Scenario.job "job1") "programDirectory" = Normal (VStr s) /\
    s <> EmptyString /\
    Validation.isValidPartialPath PosixFs.demo_host (VStr s) = true.
Proof.
  apply (valid_request_has_string_directory PosixFs.demo_host (Scenario.job "job1")
           {| Validation.isValid := true; Validation.error_of := None |});
    reflexivity.
Defined.

(** X2: the two versions of the file accept exactly the same requests and
    throw on the same ones; in both, the result carries an error message
    exactly when it is not valid. *)
Theorem versions_agree_on_validity (host : Host) (params : value) :
  match Validation.validateParams host params, Revised.validateParams host params with
  | Normal a, Normal b =>
      Validation.isValid a = Validation.isValid b /\
      (Validation.isValid a = true <-> Validation.error_of a = None) /\
      (Validation.isValid b = true <-> Validation.error_of b = None)
  | Throw e, Throw e' => e = e'
  | _, _ => False
  end.
Proof.
  unfold Validation.validateParams, Revised.validateParams.
  destruct (get_prop params "programDirectory") as [dir|e] eqn:Hget.
  - destruct (truthy dir) eqn:Ht.
    + rewrite !(validate_with_truthy host _ params dir Hget Ht).
      destruct (Validation.isValidPartialPath host dir); cbn;
        repeat split; try reflexivity; discriminate.
    + rewrite !(validate_with_falsy host _ params dir Hget Ht). cbn.
      repeat split; try reflexivity; discriminate.
  - unfold Validation.validate_with, Validation.requiredFields,
      Validation.check_required. rewrite Hget. reflexivity.
Qed.

(** X3: when the base directory cannot be resolved (it does not exist),
    no path is accepted: every request with a truthy [programDirectory] is
    answered 400 with the invalid-directory message and nothing is asked
    of the engine. *)
Theorem unresolvable_base_rejects_everything
    (host : Host) (engine : Engine) (fuel : nat) (params dir : value) (e : error) :
  realpathSync host (BASE_PATH_FOR_SCRIPTS host) = Throw e ->
  get_prop params "programDirectory" = Normal dir ->
  truthy dir = true ->
  App.startScrapperJob host engine fuel params
  = ([], Fulfilled {| status := 400;
                      body := inl (Some Validation.invalid_directory_message) |}).
Proof.
  intros Hbase Hget Ht.
  assert (Hp : Validation.isValidPartialPath host dir = false).
  { unfold Validation.isValidPartialPath, Validation.resolve_and_compare.
    now rewrite Hbase. }
  unfold App.startScrapperJob, Validation.validateParams.
  rewrite (validate_with_truthy host _ params dir Hget Ht), Hp. reflexivity.
Qed.

Lemma unresolvable_base_rejects_everything_witness :
  let host := {| cwd := "/usr/app";
                 BASE_PATH_FOR_SCRIPTS := "/srv/missing";
                 realpathSync := PosixFs.realpath PosixFs.demo_tree;
                 Buffer_toString := string_of_list_byte |} in
  App.startScrapperJob host (Scenario.script [] (Scenario.run ["done"] [] 0)) 3
    (Scenario.job "../scripts/job1")
  = ([], Fulfilled {| status := 400;
                      body := inl (Some Validation.invalid_directory_message) |}).
Proof.
  apply (unresolvable_base_rejects_everything
           {| cwd := "/usr/app";
              BASE_PATH_FOR_SCRIPTS := "/srv/missing";
              realpathSync := PosixFs.realpath PosixFs.demo_tree;
              Buffer_toString := string_of_list_byte |}
           (Scenario.script [] (Scenario.run ["done"] [] 0)) 3
           (Scenario.job "../scripts/job1") (VStr "../scripts/job1")
           (Error "ENOENT: no such file or directory, lstat '/srv/missing'"));
    reflexivity.
Defined.

(** ** The events of a run and of a job *)

Section EventFacts.

Import AsyncM.
Variable host : Host.
Variable engine : Engine.

(** The events of the capture: the two [attach] calls, then the pipe to the
    error stream or the log of the failed [attach]. *)
Lemma fst_capture (c : container) :
  fst (App.captureContainerResultFromLogs host engine c)
  = EvAttach c true false :: EvAttach c false true ::
    match snd (App.attach_both (engine c)) with
    | Fulfilled streams => map EvStderrWrite (snd streams)
    | Rejected e => [EvLogError "Error attaching to Docker container streams:" e]
    | _ => []
    end.
Proof.
  unfold App.captureContainerResultFromLogs, App.pipe_to_stderr.
  project. cbn [app]. do 2 f_equal.
  destruct (snd (App.attach_both (engine c))); project; reflexivity.
Qed.

(** The events of a run: each stage is asked for only when the stage
    before it succeeded. *)
Lemma fst_run_container (n : nat) (jobConfig : JobConfig) :
  fst (App.run_container host engine n jobConfig)
  = EvCreateContainer App.IMAGE jobConfig ::
    match createContainer_reply (engine n) with
    | Fulfils _ =>
        EvStart n ::
        match start_reply (engine n) with
        | Fulfils _ =>
            (fst (App.captureContainerResultFromLogs host engine n) ++
             match snd (App.captureContainerResultFromLogs host engine n) with
             | Fulfilled _ => [EvWait n]
             | _ => []
             end)%list
        | _ => []
        end
    | _ => []
    end.
Proof.
  unfold App.run_container, App.createDockerContainer, App.startDockerContainer,
    App.waitForContainerToFinish, App.publishFeedback.
  project. cbn [app]. f_equal.
  destruct (createContainer_reply (engine n)); project; try reflexivity.
  cbn [app]. f_equal.
  destruct (start_reply (engine n)); project; try reflexivity.
  cbn [app]. f_equal.
  destruct (snd (App.captureContainerResultFromLogs host engine n)); project;
    try reflexivity.
  cbn [app]. f_equal.
  destruct (wait_reply (engine n)) as [code|e|]; project; try reflexivity.
  destruct (code =? 0)%Z; reflexivity.
Qed.

(** The events of the handler: those of the job, and the log of the error
    that becomes status 500. *)
Lemma fst_startScrapperJob (fuel : nat) (params : value) :
  fst (App.startScrapperJob host engine fuel params)
  = match Validation.validateParams host params with
    | Throw _ => []
    | Normal v =>
        if Validation.isValid v then
          (fst (App.runDockerCommand host engine fuel 0 params) ++
           match snd (App.runDockerCommand host engine fuel 0 params) with
           | Rejected err => [EvLogError "Failed to execute Docker command:" err]
           | _ => []
           end)%list
        else []
    end.
Proof.
  unfold App.startScrapperJob.
  destruct (Validation.validateParams host params) as [v|e]; project; [|reflexivity].
  destruct (Validation.isValid v); cbn [negb]; project; [|reflexivity].
  destruct (snd (App.runDockerCommand host engine fuel 0 params));
    project; rewrite ?app_nil_r; reflexivity.
Qed.

Lemma creations_none (t : list event) (ev : event) :
  creations t = 0 -> In ev t -> is_create ev = false.
Proof.
  unfold creations. induction t as [|x t IH]; intros Hc Hin; [contradiction|].
  simpl in Hc. destruct Hin as [->|Hin].
  - destruct (is_create ev); [discriminate | reflexivity].
  - apply IH; [|exact Hin]. destruct (is_create x); [discriminate | exact Hc].
Qed.

End EventFacts.

(** ** What the handler answers *)

Section HandlerFacts.

Variable host : Host.
Variable engine : Engine.

Lemma object_params_validate (params : value) :
  is_object params = true ->
  exists v, Validation.validateParams host params = Normal v.
Proof.
  intros Hobj. destruct (get_prop_object params "programDirectory" Hobj) as [dir Hget].
  unfold Validation.validateParams.
  destruct (truthy dir) eqn:Ht.
  - rewrite (validate_with_truthy host _ params dir Hget Ht). eexists. reflexivity.
  - rewrite (validate_with_falsy host _ params dir Hget Ht). eexists. reflexivity.
Qed.

Lemma invalid_has_message (params : value) (v : Validation.validation) :
  Validation.validateParams host params = Normal v ->
  Validation.isValid v = false ->
  exists msg, Validation.error_of v = Some msg.
Proof.
  intros Hv Hno.
  destruct (validate_with_cases host _ params v Hv)
    as (dir & _ & [(_ & ->)|[(_ & _ & ->)|(_ & _ & ->)]]);
    try discriminate; eexists; reflexivity.
Qed.

Lemma valid_has_directory (params : value) (v : Validation.validation) :
  Validation.validateParams host params = Normal v ->
  exists dir, get_prop params "programDirectory" = Normal dir.
Proof.
  intros Hv. destruct (validate_with_cases host _ params v Hv) as (dir & Hget & _).
  now exists dir.
Qed.

End HandlerFacts.

(** X4: for a request body that is an object the promise of the handler is
    never rejected, and an answer has one of three forms.  Status 200: the
    request was valid, the job was fulfilled, the body is the result of
    the job and the events are those of the job.  Status 400: the request
    was not valid, the body is the error message of the validation and
    there is no event at all.  Status 500: the request was valid, the job
    was rejected with an error, the body is the fixed prefix followed by
    the message of that error, and the events are those of the job
    followed by the log of that error. *)
Theorem handler_answers_in_three_ways
    (host : Host) (engine : Engine) (fuel : nat) (params : value) :
  is_object params = true ->
  let answer := App.startScrapperJob host engine fuel params in
  let job := App.runDockerCommand host engine fuel 0 params in
  (forall e, snd answer <> Rejected e) /\
  (forall r, snd answer = Fulfilled r ->
     (exists v result,
        Validation.validateParams host params = Normal v /\
        Validation.isValid v = true /\
        snd job = Fulfilled result /\
        r = {| status := 200; body := inr result |} /\
        fst answer = fst job) \/
     (exists v msg,
        Validation.validateParams host params = Normal v /\
        Validation.isValid v = false /\
        Validation.error_of v = Some msg /\
        r = {| status := 400; body := inl (Some msg) |} /\
        fst answer = []) \/
     (exists v err,
        Validation.validateParams host params = Normal v /\
        Validation.isValid v = true /\
        snd job = Rejected err /\
        r = {| status := 500;
               body := inl (Some ("Puppeteer script execution failed: "
                                  ++ message err)) |} /\
        fst answer
        = (fst job ++ [EvLogError "Failed to execute Docker command:" err])%list)).
Proof.
  intros Hobj answer job. subst answer job.
  rewrite snd_startScrapperJob, fst_startScrapperJob.
  destruct (object_params_validate host params Hobj) as [v Hv]. rewrite Hv.
  destruct (Validation.isValid v) eqn:Hok.
  - destruct (snd (App.runDockerCommand host engine fuel 0 params)) as [res|err| |err|];
      (split; [discriminate|]); intros r Hr; try discriminate;
      injection Hr as <-.
    + left. exists v, res. rewrite app_nil_r. repeat split; assumption.
    + right. right. exists v, err. repeat split; assumption.
  - split; [discriminate|]. intros r Hr. injection Hr as <-.
    right. left.
    destruct (invalid_has_message host params v Hv Hok) as [msg Hmsg].
    exists v, msg. rewrite Hmsg. repeat split; assumption.
Qed.

Lemma handler_answers_in_three_ways_witness :
  let engine := Scenario.script [] (Scenario.run ["out"] [] 2) in
  let answer := App.startScrapperJob PosixFs.demo_host engine 1 (Scenario.job "job1") in
  let job := App.runDockerCommand PosixFs.demo_host engine 1 0 (Scenario.job "job1") in
  exists err,
    snd job = Rejected err /\
    snd answer
    = Fulfilled {| status := 500;
                   body := inl (Some ("Puppeteer script execution failed: "
                                      ++ message err)) |} /\
    fst answer
    = (fst job ++ [EvLogError "Failed to execute Docker command:" err])%list.
Proof.
  destruct (handler_answers_in_three_ways PosixFs.demo_host
              (Scenario.script [] (Scenario.run ["out"] [] 2)) 1 (Scenario.job "job1")
              eq_refl) as [_ H].
  destruct (H {| status := 500;
                 body := inl (Some "Puppeteer script execution failed: Puppeteer script execution failed with exit code 2") |}
              eq_refl)
    as [(v & res & _ & _ & _ & Hr & _)
       |[(v & msg & _ & _ & _ & Hr & _)
        |(v & err & _ & _ & Hjob & Hr & Hfst)]]; try discriminate.
  exists err. split; [exact Hjob|]. split; [|exact Hfst].
  injection Hr as Hbody.
  change (snd (App.startScrapperJob PosixFs.demo_host
                 (Scenario.script [] (Scenario.run ["out"] [] 2)) 1 (Scenario.job "job1")))
    with (Fulfilled (A:=response)
            {| status := 500;
               body := inl (Some "Puppeteer script execution failed: Puppeteer script execution failed with exit code 2") |}).
  now rewrite Hbody.
Defined.

(** ** Pull and retry *)

Section RetryFacts.

Variable host : Host.
Variable engine : Engine.

Lemma shift_run_container (k n : nat) (jobConfig : JobConfig) :
  snd (App.run_container host (shift k engine) n jobConfig)
  = snd (App.run_container host engine (k + n) jobConfig).
Proof. rewrite !snd_run_container, !snd_capture. reflexivity. Qed.

(** The job on the shifted engine ends as the later call does. *)
Lemma shift_runDockerCommand (k fuel n : nat) (jobParams : value) :
  snd (App.runDockerCommand host (shift k engine) fuel n jobParams)
  = snd (App.runDockerCommand host engine fuel (k + n) jobParams).
Proof.
  revert n jobParams.
  induction fuel as [|fuel IH]; intros n jobParams; [reflexivity|].
  rewrite !snd_runDockerCommand.
  destruct (get_prop jobParams "programDirectory") as [dir|e]; [|reflexivity].
  rewrite shift_run_container.
  destruct (snd (App.run_container host engine (k + n) (App.jobConfig_of dir)));
    try reflexivity.
  destruct (App.image_not_found e) as [[|]|e']; try reflexivity.
  change (pull (shift k engine n)) with (pull (engine (k + n))).
  destruct (pull (engine (k + n))) as [e'|  |e'| |[e'|]]; try reflexivity.
  rewrite IH. now rewrite Nat.add_succ_r.
Qed.

(** Pulls and creations alternate: a job never pulls more often than it
    creates, and creates at most once more than it pulls. *)
Lemma runDockerCommand_alternates (fuel n : nat) (jobParams : value) :
  let t := fst (App.runDockerCommand host engine fuel n jobParams) in
  pulls t <= creations t <= S (pulls t).
Proof.
  revert n jobParams.
  induction fuel as [|fuel IH]; intros n jobParams; cbn zeta.
  - cbn. lia.
  - rewrite fst_runDockerCommand.
    destruct (get_prop jobParams "programDirectory") as [dir|e]; [|cbn; lia].
    destruct (run_container_counts host engine n (App.jobConfig_of dir)) as [Hp Hc].
    rewrite pulls_app, creations_app, Hp, Hc.
    destruct (snd (App.run_container host engine n (App.jobConfig_of dir)));
      try (cbn; lia).
    destruct (App.image_not_found e) as [[|]|e']; try (cbn; lia).
    change (EvPull App.IMAGE :: ?l) with ([EvPull App.IMAGE] ++ l)%list.
    rewrite pulls_app, creations_app.
    destruct (pull (engine n)) as [e'|  |e'| |[e'|]]; try (cbn; lia).
    specialize (IH (S n) (App.value_of_JobConfig (App.jobConfig_of dir))).
    cbn zeta in IH. cbn [pulls creations filter is_pull is_create length]. lia.
Qed.

(** Every creation of a job asks for the same image with the same
    configuration. *)
Lemma runDockerCommand_creations (fuel n : nat) (jobParams dir : value) (ev : event) :
  get_prop jobParams "programDirectory" = Normal dir ->
  In ev (fst (App.runDockerCommand host engine fuel n jobParams)) ->
  is_create ev = true ->
  ev = EvCreateContainer App.IMAGE (App.jobConfig_of dir).
Proof.
  revert n jobParams.
  induction fuel as [|fuel IH]; intros n jobParams Hdir Hin Hev; [contradiction|].
  rewrite fst_runDockerCommand, Hdir in Hin.
  apply in_app_or in Hin as [Hin|Hin].
  - destruct (run_container_counts host engine n (App.jobConfig_of dir)) as [_ Hc].
    rewrite fst_run_container in Hin, Hc.
    destruct Hin as [<-|Hin]; [reflexivity|].
    assert (Hnone : is_create ev = false).
    { eapply creations_none; [|exact Hin]. unfold creations in *. simpl in Hc.
      now injection Hc. }
    congruence.
  - destruct (snd (App.run_container host engine n (App.jobConfig_of dir)));
      try contradiction.
    destruct (App.image_not_found e) as [[|]|e']; try contradiction.
    destruct Hin as [<-|Hin]; [discriminate|].
    destruct (pull (engine n)) as [e'|  |e'| |[e'|]]; try contradiction.
    + destruct Hin as [<-|[]]. discriminate.
    + exact (IH (S n) _ (get_prop_jobConfig dir) Hin Hev).
Qed.

Lemma alternates_quiet_l (b : bool) (t u : list event) :
  pulls t = 0 -> creations t = 0 ->
  alternates b (t ++ u) = alternates b u.
Proof.
  unfold pulls, creations.
  induction t as [|ev t IH]; intros Hp Hc; [reflexivity|].
  simpl in *. destruct (is_create ev); [discriminate|].
  destruct (is_pull ev); [discriminate|]. now apply IH.
Qed.

Lemma alternates_quiet_r (b : bool) (t u : list event) :
  pulls u = 0 /\ creations u = 0 ->
  alternates b (t ++ u) = alternates b t.
Proof.
  intros [Hp Hc]. revert b.
  induction t as [|ev t IH]; intros b.
  - cbn [app]. rewrite <- (app_nil_r u). exact (alternates_quiet_l b u [] Hp Hc).
  - simpl. rewrite !IH. reflexivity.
Qed.

(** The events of a job: a creation, then, if at all, a pull and the
    events of the next run. *)
Lemma runDockerCommand_in_turn (fuel n : nat) (jobParams : value) :
  alternates true (fst (App.runDockerCommand host engine fuel n jobParams)) = true.
Proof.
  revert n jobParams.
  induction fuel as [|fuel IH]; intros n jobParams; [reflexivity|].
  rewrite fst_runDockerCommand.
  destruct (get_prop jobParams "programDirectory") as [dir|e]; [|reflexivity].
  destruct (run_container_counts host engine n (App.jobConfig_of dir)) as [Hp Hc].
  rewrite fst_run_container in *.
  set (tail := match createContainer_reply (engine n) with
               | Fulfils _ => _
               | _ => []
               end) in *.
  assert (Hqp : pulls tail = 0) by exact Hp.
  assert (Hqc : creations tail = 0).
  { unfold creations in *. simpl in Hc. now injection Hc. }
  change ((EvCreateContainer App.IMAGE (App.jobConfig_of dir) :: tail) ++ ?u)%list
    with (EvCreateContainer App.IMAGE (App.jobConfig_of dir) :: (tail ++ u))%list.
  cbn [alternates is_create andb].
  rewrite (alternates_quiet_l false tail _ Hqp Hqc).
  destruct (snd (App.run_container host engine n (App.jobConfig_of dir)));
    try reflexivity.
  destruct (App.image_not_found e) as [[|]|e']; try reflexivity.
  cbn [alternates is_create is_pull negb andb].
  destruct (pull (engine n)) as [e'|  |e'| |[e'|]]; try reflexivity.
  apply IH.
Qed.

End RetryFacts.

(** X5: the rounds of pull and retry do not show in the answer: after [k]
    runs that each failed on a missing image and pulled it, the handler
    ends exactly as it would on the engine that starts with the run
    number [k]. *)
Theorem retries_do_not_show
    (host : Host) (engine : Engine) (k fuel : nat) (params dir : value) :
  get_prop params "programDirectory" = Normal dir ->
  (forall i, i < k -> pulled_and_retried host engine dir i) ->
  snd (App.startScrapperJob host engine (k + fuel) params)
  = snd (App.startScrapperJob host (shift k engine) fuel params).
Proof.
  intros Hdir Hretry. rewrite !snd_startScrapperJob.
  destruct (Validation.validateParams host params) as [v|e]; [|reflexivity].
  destruct (Validation.isValid v); [|reflexivity].
  destruct (runDockerCommand_retries host engine dir k fuel 0 params Hdir
              ltac:(intros i Hi; apply Hretry; lia)) as (Ho & _).
  cbn [Nat.add] in Ho. rewrite Ho, shift_runDockerCommand.
  now rewrite Nat.add_0_r.
Qed.

Lemma retries_do_not_show_witness :
  let engine :=
    Scenario.script [Scenario.image_missing (PullFinished None);
                     Scenario.image_missing (PullFinished None)]
                    (Scenario.run ["done"] [] 0) in
  snd (App.startScrapperJob PosixFs.demo_host engine (2 + 1) (Scenario.job "job1"))
  = snd (App.startScrapperJob PosixFs.demo_host (shift 2 engine) 1 (Scenario.job "job1")).
Proof.
  apply (retries_do_not_show PosixFs.demo_host
           (Scenario.script [Scenario.image_missing (PullFinished None);
                             Scenario.image_missing (PullFinished None)]
                            (Scenario.run ["done"] [] 0))
           2 1 (Scenario.job "job1") (VStr "job1")).
  - reflexivity.
  - intros i Hi. exists Scenario.no_such_image.
    destruct i as [|[|i]]; [now vm_compute | now vm_compute | lia].
Defined.

(** X6: in the trace of every request the creations and the pulls come
    in turn, starting with a creation: between two creations there is a
    pull, between two pulls a creation, and no pull comes before the first
    creation.  So the number of pulls never exceeds the number of
    creations, and the number of creations exceeds it by at most one. *)
Theorem pulls_and_creations_alternate
    (host : Host) (engine : Engine) (fuel : nat) (params : value) :
  let t := fst (App.startScrapperJob host engine fuel params) in
  alternates true t = true /\
  pulls t <= creations t <= S (pulls t).
Proof.
  cbn zeta. rewrite fst_startScrapperJob.
  destruct (Validation.validateParams host params) as [v|e]; [|cbn; split; [reflexivity|lia]].
  destruct (Validation.isValid v); [|cbn; split; [reflexivity|lia]].
  split.
  - rewrite alternates_quiet_r.
    + apply runDockerCommand_in_turn.
    + destruct (snd (App.runDockerCommand host engine fuel 0 params));
        split; reflexivity.
  - pose proof (runDockerCommand_alternates host engine fuel 0 params) as H.
    cbn zeta in H. rewrite pulls_app, creations_app.
    destruct (snd (App.runDockerCommand host engine fuel 0 params)); cbn; lia.
Qed.

(** A trace that the counts allow and the order forbids. *)
Example counts_do_not_give_the_order :
  let t := [EvPull App.IMAGE; EvPull App.IMAGE;
            EvCreateContainer App.IMAGE (App.jobConfig_of (VStr "job1"));
            EvCreateContainer App.IMAGE (App.jobConfig_of (VStr "job1"))] in
  pulls t <= creations t <= S (pulls t) /\ alternates true t = false.
Proof. cbn. split; [lia | reflexivity]. Qed.

(** X7: every container a request creates, in the first run and in every
    retry, is asked for with the same image and the same configuration:
    the fixed start-up command and the [programDirectory] of the request
    as it was sent. *)
Theorem every_creation_uses_the_request
    (host : Host) (engine : Engine) (fuel : nat) (params dir : value) (ev : event) :
  get_prop params "programDirectory" = Normal dir ->
  In ev (fst (App.startScrapperJob host engine fuel params)) ->
  is_create ev = true ->
  ev = EvCreateContainer "ghcr.io/puppeteer/puppeteer:22.10.0"
         {| bashStartUpCmd :=
              "mkdir -p /home/pptruser/workdir && cp -r /home/pptruser/app/{.,}* /home/pptruser/workdir/ && cd /home/pptruser/workdir && npm ci && node app.mjs";
            programDirectory := dir |}.
Proof.
  intros Hdir Hin Hev. rewrite fst_startScrapperJob in Hin.
  destruct (Validation.validateParams host params) as [v|e]; [|contradiction].
  destruct (Validation.isValid v); [|contradiction].
  apply in_app_or in Hin as [Hin|Hin].
  - exact (runDockerCommand_creations host engine fuel 0 params dir ev Hdir Hin Hev).
  - destruct (snd (App.runDockerCommand host engine fuel 0 params));
      try contradiction.
    destruct Hin as [<-|[]]. discriminate.
Qed.

Lemma every_creation_uses_the_request_witness :
  let engine :=
    Scenario.script [Scenario.image_missing (PullFinished None)]
                    (Scenario.run ["done"] [] 0) in
  let cfg := App.jobConfig_of (VStr "job1") in
  In (EvCreateContainer App.IMAGE cfg)
     (fst (App.startScrapperJob PosixFs.demo_host engine 2 (Scenario.job "job1"))) /\
  EvCreateContainer App.IMAGE cfg
  = EvCreateContainer "ghcr.io/puppeteer/puppeteer:22.10.0"
      {| bashStartUpCmd :=
           "mkdir -p /home/pptruser/workdir && cp -r /home/pptruser/app/{.,}* /home/pptruser/workdir/ && cd /home/pptruser/workdir && npm ci && node app.mjs";
         programDirectory := VStr "job1" |}.
Proof.
  assert (Hin : In (EvCreateContainer App.IMAGE (App.jobConfig_of (VStr "job1")))
                  (fst (App.startScrapperJob PosixFs.demo_host
                          (Scenario.script [Scenario.image_missing (PullFinished None)]
                                           (Scenario.run ["done"] [] 0))
                          2 (Scenario.job "job1")))).
  { vm_compute. right. right. left. reflexivity. }
  split; [exact Hin|].
  exact (every_creation_uses_the_request PosixFs.demo_host
           (Scenario.script [Scenario.image_missing (PullFinished None)]
                            (Scenario.run ["done"] [] 0))
           2 (Scenario.job "job1") (VStr "job1") _ eq_refl Hin eq_refl).
Defined.

(** ** Where a rejection comes from *)

Section OriginFacts.

Variable host : Host.
Variable engine : Engine.

Lemma collectStdout_rejected (toString : list Byte.byte -> string)
    (events : list stream_event) (stdoutData : string) (e : error) :
  App.collectStdout toString events stdoutData = Rejected e ->
  In e (stream_errors events).
Proof.
  revert stdoutData.
  induction events as [|[chunk| |err] events IH]; intros stdoutData H;
    simpl in *; try discriminate.
  - exact (IH _ H).
  - injection H as ->. now left.
Qed.

Lemma collectStdout_data_only (toString : list Byte.byte -> string)
    (events : list stream_event) (stdoutData : string) :
  forallb is_data events = true ->
  App.collectStdout toString events stdoutData = Pending.
Proof.
  revert stdoutData.
  induction events as [|[chunk| |err] events IH]; intros stdoutData H;
    simpl in *; try discriminate; auto.
Qed.

Lemma collectStdout_stream_error (toString : list Byte.byte -> string)
    (chunks : list (list Byte.byte)) (e : error) (later : list stream_event)
    (stdoutData : string) :
  App.collectStdout toString (map Data chunks ++ StreamError e :: later) stdoutData
  = Rejected e.
Proof.
  revert stdoutData. induction chunks as [|c chunks IH]; intros stdoutData;
    simpl; auto.
Qed.

(** A run is rejected with an error of the engine or with the error that
    [waitForContainerToFinish] builds for a non-zero exit code. *)
Lemma run_container_rejected (n : nat) (jobConfig : JobConfig) (e : error) :
  snd (App.run_container host engine n jobConfig) = Rejected e ->
  In e (attempt_errors (engine n)) \/
  exists StatusCode,
    wait_reply (engine n) = Fulfils StatusCode /\ StatusCode <> 0%Z /\
    e = Error ("Puppeteer script execution failed with exit code "
               ++ JsString.of_Z StatusCode).
Proof.
  rewrite snd_run_container, snd_capture. unfold attempt_errors.
  destruct (createContainer_reply (engine n)) as [[]|e1|]; try discriminate;
    [|intros H; injection H as ->; left; now left].
  destruct (start_reply (engine n)) as [[]|e2|]; try discriminate;
    [|intros H; injection H as ->; left; now left].
  assert (W : forall r : option string,
             match wait_reply (engine n) with
             | Fulfils StatusCode =>
                 if (StatusCode =? 0)%Z then Fulfilled r
                 else Rejected
                        (Error ("Puppeteer script execution failed with exit code "
                                ++ JsString.of_Z StatusCode))
             | Rejects e0 => Rejected e0
             | NeverSettles => Pending
             end = Rejected e ->
             In e (reply_errors (wait_reply (engine n))) \/
             exists StatusCode,
               wait_reply (engine n) = Fulfils StatusCode /\ StatusCode <> 0%Z /\
               e = Error ("Puppeteer script execution failed with exit code "
                          ++ JsString.of_Z StatusCode)).
  { intros r. destruct (wait_reply (engine n)) as [code|e3|]; try discriminate.
    - destruct (Z.eqb_spec code 0); try discriminate.
      intros H; injection H as <-. right. now exists code.
    - intros H; injection H as ->. left. now left. }
  cbn [reply_errors app].
  destruct (attach_stdout_reply (engine n)) as [out|e3|],
           (attach_stderr_reply (engine n)) as [err|e4|];
    try discriminate; cbn [reply_errors app];
    try (intros H; destruct (W _ H) as [Hin|Hex]; [left|right; exact Hex];
         repeat (apply in_or_app; right); rewrite ?app_nil_r;
         try (right; exact Hin); try (right; right; exact Hin); exact Hin).
  destruct (App.collectStdout (Buffer_toString host) out EmptyString)
    as [r|e5| |e5|] eqn:Hcol; try discriminate.
  - intros H; destruct (W _ H) as [Hin|Hex]; [left|right; exact Hex].
    apply in_or_app. right. exact Hin.
  - intros H; injection H as ->. left. apply in_or_app. left.
    exact (collectStdout_rejected _ _ _ _ Hcol).
Qed.

Lemma image_not_found_other_status (e : error) :
  statusCode e <> Some 404%Z -> App.image_not_found e = Normal false.
Proof.
  unfold App.image_not_found. destruct (statusCode e) as [code|]; [|reflexivity].
  destruct (Z.eqb_spec code 404) as [->|]; [congruence | reflexivity].
Qed.

End OriginFacts.

(** X8: the image is pulled only after the engine answered with status
    404.  When no error that the engine hands to any run has
    [statusCode] 404, a request never pulls, creates at most one
    container, and one unit of fuel is enough to know how it ends. *)
Theorem no_404_no_pull
    (host : Host) (engine : Engine) (fuel : nat) (params : value) :
  (forall n e, In e (attempt_errors (engine n)) -> statusCode e <> Some 404%Z) ->
  let job := App.startScrapperJob host engine (S fuel) params in
  pulls (fst job) = 0 /\ creations (fst job) <= 1 /\ snd job <> OutOfFuel.
Proof.
  intros Hno job. subst job.
  rewrite snd_startScrapperJob, fst_startScrapperJob.
  destruct (Validation.validateParams host params) as [v|e];
    [|repeat split; [cbn; lia | discriminate]].
  destruct (Validation.isValid v);
    [|repeat split; [cbn; lia | discriminate]].
  rewrite fst_runDockerCommand, snd_runDockerCommand.
  destruct (get_prop params "programDirectory") as [dir|e];
    [|repeat split; [cbn; lia | discriminate]].
  destruct (run_container_counts host engine 0 (App.jobConfig_of dir)) as [Hp Hc].
  pose proof (run_container_has_fuel host engine 0 (App.jobConfig_of dir)) as Hfuel.
  pose proof (run_container_rejected host engine 0 (App.jobConfig_of dir)) as Horigin.
  rewrite !pulls_app, !creations_app, Hp, Hc.
  destruct (snd (App.run_container host engine 0 (App.jobConfig_of dir)))
    as [r|e| |e|]; try contradiction;
    try (repeat split; [cbn; lia | discriminate]).
  assert (Hstatus : statusCode e <> Some 404%Z).
  { destruct (Horigin e eq_refl) as [Hin|(code & _ & _ & ->)];
      [exact (Hno 0 e Hin) | discriminate]. }
  rewrite (image_not_found_other_status e Hstatus).
  repeat split; [cbn; lia | discriminate].
Qed.

Lemma no_404_no_pull_witness :
  let refused := {| message := "(HTTP code 500) server error - no space left on device";
                    statusCode := Some 500%Z;
                    json := JsonMessage "no space left on device" |} in
  let engine :=
    Scenario.script [] (Scenario.start_fails refused (PullFinished None)) in
  let job := App.startScrapperJob PosixFs.demo_host engine 1 (Scenario.job "job1") in
  pulls (fst job) = 0 /\ creations (fst job) <= 1 /\ snd job <> OutOfFuel.
Proof.
  apply (no_404_no_pull PosixFs.demo_host
           (Scenario.script []
              (Scenario.start_fails
                 {| message := "(HTTP code 500) server error - no space left on device";
                    statusCode := Some 500%Z;
                    json := JsonMessage "no space left on device" |}
                 (PullFinished None)))
           0 (Scenario.job "job1")).
  intros n e Hin.
  assert (E : e = {| message := "(HTTP code 500) server error - no space left on device";
                     statusCode := Some 500%Z;
                     json := JsonMessage "no space left on device" |}).
  { destruct n as [|n]; vm_compute in Hin; destruct Hin as [<-|[]]; reflexivity. }
  rewrite E. discriminate.
Defined.

(** X9: nothing in the service ends a job whose container keeps its
    standard output open.  When the stream delivers data and neither ends
    nor fails, the request is never answered and [container.wait] is never
    called. *)
Theorem open_output_blocks_the_request
    (host : Host) (engine : Engine) (fuel : nat) (params : value)
    (v : Validation.validation)
    (events : list stream_event) (errs : list (list Byte.byte)) :
  Validation.validateParams host params = Normal v ->
  Validation.isValid v = true ->
  createContainer_reply (engine 0) = Fulfils tt ->
  start_reply (engine 0) = Fulfils tt ->
  attach_stdout_reply (engine 0) = Fulfils events ->
  attach_stderr_reply (engine 0) = Fulfils errs ->
  forallb is_data events = true ->
  let job := App.startScrapperJob host engine (S fuel) params in
  snd job = Pending /\
  (forall ev, In ev (fst job) -> is_wait ev = false).
Proof.
  intros Hv Hok Hc Hs Hout Herr Hdata job. subst job.
  destruct (valid_has_directory host params v Hv) as [dir Hdir].
  assert (Hcap : snd (App.captureContainerResultFromLogs host engine 0) = Pending).
  { rewrite snd_capture, Hout, Herr. now apply collectStdout_data_only. }
  assert (Hrun : snd (App.run_container host engine 0 (App.jobConfig_of dir)) = Pending).
  { now rewrite snd_run_container, Hc, Hs, Hcap. }
  rewrite snd_startScrapperJob, fst_startScrapperJob, Hv, Hok.
  rewrite snd_runDockerCommand, fst_runDockerCommand, Hdir, Hrun.
  split; [reflexivity|].
  rewrite !app_nil_r, fst_run_container, Hc, Hs, Hcap, app_nil_r.
  rewrite (fst_capture_attached host engine 0 events errs Hout Herr).
  intros ev [<-|[<-|[<-|[<-|Hin]]]]; try reflexivity.
  apply in_map_iff in Hin as (chunk & <- & _). reflexivity.
Qed.

Lemma open_output_blocks_the_request_witness :
  let engine :=
    Scenario.script []
      {| createContainer_reply := Fulfils tt;
         start_reply := Fulfils tt;
         attach_stdout_reply := Fulfils [Data (Scenario.bytes "tick"); Data (Scenario.bytes "tock")];
         attach_stderr_reply := Fulfils [];
         stderr_attach_settles_first := false;
         wait_reply := Fulfils 0%Z;
         pull := PullFinished None |} in
  let job := App.startScrapperJob PosixFs.demo_host engine 1 (Scenario.job "job1") in
  snd job = Pending /\
  (forall ev, In ev (fst job) -> is_wait ev = false).
Proof.
  apply (open_output_blocks_the_request PosixFs.demo_host
           (Scenario.script []
              {| createContainer_reply := Fulfils tt;
                 start_reply := Fulfils tt;
                 attach_stdout_reply :=
                   Fulfils [Data (Scenario.bytes "tick"); Data (Scenario.bytes "tock")];
                 attach_stderr_reply := Fulfils [];
                 stderr_attach_settles_first := false;
                 wait_reply := Fulfils 0%Z;
                 pull := PullFinished None |})
           0 (Scenario.job "job1")
           {| Validation.isValid := true; Validation.error_of := None |}
           [Data (Scenario.bytes "tick"); Data (Scenario.bytes "tock")] []);
    reflexivity.
Defined.

(** X10: an error of the standard-output stream discards what was
    captured before it.  Whatever data came first and whatever the stream
    emits afterwards, the job is rejected with that error, [container.wait]
    is not called, and the caller gets status 500 with the message of the
    stream error (the error not having the shape of a missing image). *)
Theorem stream_error_discards_output
    (host : Host) (engine : Engine) (fuel : nat) (params : value)
    (v : Validation.validation) (chunks : list (list Byte.byte)) (e : error)
    (later : list stream_event) (errs : list (list Byte.byte)) :
  Validation.validateParams host params = Normal v ->
  Validation.isValid v = true ->
  createContainer_reply (engine 0) = Fulfils tt ->
  start_reply (engine 0) = Fulfils tt ->
  attach_stdout_reply (engine 0) = Fulfils (map Data chunks ++ StreamError e :: later)%list ->
  attach_stderr_reply (engine 0) = Fulfils errs ->
  App.image_not_found e = Normal false ->
  let job := App.startScrapperJob host engine (S fuel) params in
  snd job = Fulfilled {| status := 500;
                         body := inl (Some ("Puppeteer script execution failed: "
                                            ++ message e)) |} /\
  (forall ev, In ev (fst job) -> is_wait ev = false).
Proof.
  intros Hv Hok Hc Hs Hout Herr Hshape job. subst job.
  destruct (valid_has_directory host params v Hv) as [dir Hdir].
  assert (Hcap : snd (App.captureContainerResultFromLogs host engine 0) = Rejected e).
  { rewrite snd_capture, Hout, Herr. apply collectStdout_stream_error. }
  assert (Hrun : snd (App.run_container host engine 0 (App.jobConfig_of dir)) = Rejected e).
  { now rewrite snd_run_container, Hc, Hs, Hcap. }
  rewrite snd_startScrapperJob, fst_startScrapperJob, Hv, Hok.
  rewrite snd_runDockerCommand, fst_runDockerCommand, Hdir, Hrun, Hshape.
  split; [reflexivity|].
  rewrite !app_nil_r, fst_run_container, Hc, Hs, Hcap, app_nil_r.
  rewrite (fst_capture_attached host engine 0 _ errs Hout Herr).
  intros ev Hin. apply in_app_or in Hin as [Hin|[<-|[]]]; [|reflexivity].
  destruct Hin as [<-|[<-|[<-|[<-|Hin]]]]; try reflexivity.
  apply in_map_iff in Hin as (chunk & <- & _). reflexivity.
Qed.

Lemma stream_error_discards_output_witness :
  let broken := Error "read ECONNRESET" in
  let engine :=
    Scenario.script []
      {| createContainer_reply := Fulfils tt;
         start_reply := Fulfils tt;
         attach_stdout_reply :=
           Fulfils [Data (Scenario.bytes "par"); Data (Scenario.bytes "tial");
                    StreamError broken; Data (Scenario.bytes "more"); End];
         attach_stderr_reply := Fulfils [Scenario.bytes "warn"];
         stderr_attach_settles_first := false;
         wait_reply := Fulfils 0%Z;
         pull := PullFinished None |} in
  let job := App.startScrapperJob PosixFs.demo_host engine 1 (Scenario.job "job1") in
  snd job = Fulfilled {| status := 500;
                         body := inl (Some ("Puppeteer script execution failed: "
                                            ++ message broken)) |} /\
  (forall ev, In ev (fst job) -> is_wait ev = false).
Proof.
  apply (stream_error_discards_output PosixFs.demo_host
           (Scenario.script []
              {| createContainer_reply := Fulfils tt;
                 start_reply := Fulfils tt;
                 attach_stdout_reply :=
                   Fulfils [Data (Scenario.bytes "par"); Data (Scenario.bytes "tial");
                            StreamError (Error "read ECONNRESET");
                            Data (Scenario.bytes "more"); End];
                 attach_stderr_reply := Fulfils [Scenario.bytes "warn"];
                 stderr_attach_settles_first := false;
                 wait_reply := Fulfils 0%Z;
                 pull := PullFinished None |})
           0 (Scenario.job "job1")
           {| Validation.isValid := true; Validation.error_of := None |}
           [Scenario.bytes "par"; Scenario.bytes "tial"] (Error "read ECONNRESET")
           [Data (Scenario.bytes "more"); End] [Scenario.bytes "warn"]);
    reflexivity.
Defined.

(** X11: the test for a missing image can itself throw.  When a run is
    rejected with status 404 and a [json] that has no [message], reading
    [err.json.message.includes] throws a type error inside the [catch]:
    there is no pull, and the caller gets status 500 with the message of
    the type error in place of the message of the engine. *)
Theorem status_404_without_message_masks_the_error
    (host : Host) (engine : Engine) (fuel : nat) (params dir : value)
    (v : Validation.validation) (e : error) :
  Validation.validateParams host params = Normal v ->
  Validation.isValid v = true ->
  get_prop params "programDirectory" = Normal dir ->
  snd (App.run_container host engine 0 (App.jobConfig_of dir)) = Rejected e ->
  statusCode e = Some 404%Z ->
  json e = JsonWithoutMessage ->
  let job := App.startScrapperJob host engine (S fuel) params in
  snd job = Fulfilled
              {| status := 500;
                 body := inl (Some "Puppeteer script execution failed: Cannot read properties of undefined (reading 'includes')") |} /\
  pulls (fst job) = 0.
Proof.
  intros Hv Hok Hdir Hrun Hstatus Hjson job. subst job.
  assert (Hshape : App.image_not_found e
                   = Throw (TypeError "Cannot read properties of undefined (reading 'includes')")).
  { unfold App.image_not_found. now rewrite Hstatus, Hjson. }
  rewrite snd_startScrapperJob, fst_startScrapperJob, Hv, Hok.
  rewrite snd_runDockerCommand, fst_runDockerCommand, Hdir, Hrun, Hshape.
  split; [reflexivity|].
  destruct (run_container_counts host engine 0 (App.jobConfig_of dir)) as [Hp _].
  now rewrite !pulls_app, Hp.
Qed.

Lemma status_404_without_message_masks_the_error_witness :
  let plain := {| message := "(HTTP code 404) no such container - 404 page not found";
                  statusCode := Some 404%Z;
                  json := JsonWithoutMessage |} in
  let engine := Scenario.script [] (Scenario.start_fails plain (PullFinished None)) in
  let job := App.startScrapperJob PosixFs.demo_host engine 1 (Scenario.job "job1") in
  snd job = Fulfilled
              {| status := 500;
                 body := inl (Some "Puppeteer script execution failed: Cannot read properties of undefined (reading 'includes')") |} /\
  pulls (fst job) = 0.
Proof.
  apply (status_404_without_message_masks_the_error PosixFs.demo_host
           (Scenario.script []
              (Scenario.start_fails
                 {| message := "(HTTP code 404) no such container - 404 page not found";
                    statusCode := Some 404%Z;
                    json := JsonWithoutMessage |}
                 (PullFinished None)))
           0 (Scenario.job "job1") (VStr "job1")
           {| Validation.isValid := true; Validation.error_of := None |}
           {| message := "(HTTP code 404) no such container - 404 page not found";
              statusCode := Some 404%Z;
              json := JsonWithoutMessage |});
    reflexivity.
Defined.

(** X12: a stage that fails ends the run.  When the creation is rejected,
    nothing else is asked of the engine; when the start is rejected, the
    container is neither attached to nor waited for.  In both cases (the
    error not having the shape of a missing image) the error is logged and
    the caller gets status 500 with its message. *)
Theorem failed_stage_ends_the_run
    (host : Host) (engine : Engine) (fuel : nat) (params dir : value)
    (v : Validation.validation) (e : error) :
  Validation.validateParams host params = Normal v ->
  Validation.isValid v = true ->
  get_prop params "programDirectory" = Normal dir ->
  App.image_not_found e = Normal false ->
  let job := App.startScrapperJob host engine (S fuel) params in
  let answer :=
    Fulfilled {| status := 500;
                 body := inl (Some ("Puppeteer script execution failed: "
                                    ++ message e)) |} in
  let log := EvLogError "Failed to execute Docker command:" e in
  (createContainer_reply (engine 0) = Rejects e ->
     job = ([EvCreateContainer App.IMAGE (App.jobConfig_of dir); log], answer)) /\
  (createContainer_reply (engine 0) = Fulfils tt ->
   start_reply (engine 0) = Rejects e ->
     job = ([EvCreateContainer App.IMAGE (App.jobConfig_of dir); EvStart 0; log],
            answer)).
Proof.
  intros Hv Hok Hdir Hshape job answer log. subst job answer log.
  split.
  - intros Hc.
    rewrite (surjective_pairing (App.startScrapperJob host engine (S fuel) params)).
    rewrite snd_startScrapperJob, fst_startScrapperJob, Hv, Hok.
    rewrite snd_runDockerCommand, fst_runDockerCommand, Hdir.
    rewrite snd_run_container, fst_run_container, Hc, Hshape. reflexivity.
  - intros Hc Hs.
    rewrite (surjective_pairing (App.startScrapperJob host engine (S fuel) params)).
    rewrite snd_startScrapperJob, fst_startScrapperJob, Hv, Hok.
    rewrite snd_runDockerCommand, fst_runDockerCommand, Hdir.
    rewrite snd_run_container, fst_run_container, Hc, Hs, Hshape. reflexivity.
Qed.

Lemma failed_stage_ends_the_run_witness :
  let refused := {| message := "(HTTP code 409) conflict - container is paused";
                    statusCode := Some 409%Z;
                    json := JsonMessage "container is paused" |} in
  let engine := Scenario.script [] (Scenario.start_fails refused (PullFinished None)) in
  let job := App.startScrapperJob PosixFs.demo_host engine 1 (Scenario.job "job1") in
  job = ([EvCreateContainer App.IMAGE (App.jobConfig_of (VStr "job1")); EvStart 0;
          EvLogError "Failed to execute Docker command:" refused],
         Fulfilled {| status := 500;
                      body := inl (Some ("Puppeteer script execution failed: "
                                         ++ message refused)) |}).
Proof.
  apply (failed_stage_ends_the_run PosixFs.demo_host
           (Scenario.script []
              (Scenario.start_fails
                 {| message := "(HTTP code 409) conflict - container is paused";
                    statusCode := Some 409%Z;
                    json := JsonMessage "container is paused" |}
                 (PullFinished None)))
           0 (Scenario.job "job1") (VStr "job1")
           {| Validation.isValid := true; Validation.error_of := None |}
           {| message := "(HTTP code 409) conflict - container is paused";
              statusCode := Some 409%Z;
              json := JsonMessage "container is paused" |});
    reflexivity.
Defined.

Section UndefinedResult.

Variable host : Host.
Variable engine : Engine.

Lemma capture_undefined (c : container) :
  snd (App.captureContainerResultFromLogs host engine c) = Fulfilled None ->
  exists e, attach_stdout_reply (engine c) = Rejects e \/
            attach_stderr_reply (engine c) = Rejects e.
Proof.
  rewrite snd_capture.
  destruct (attach_stdout_reply (engine c)) as [out|e1|],
           (attach_stderr_reply (engine c)) as [err|e2|];
    intros H; try discriminate; eauto.
  pose proof (collectStdout_outcomes (Buffer_toString host) out EmptyString) as C.
  rewrite H in C. contradiction.
Qed.

Lemma runDockerCommand_undefined (fuel n : nat) (jobParams : value) :
  snd (App.runDockerCommand host engine fuel n jobParams) = Fulfilled None ->
  exists m e,
    (attach_stdout_reply (engine m) = Rejects e \/
     attach_stderr_reply (engine m) = Rejects e) /\
    wait_reply (engine m) = Fulfils 0%Z.
Proof.
  revert n jobParams.
  induction fuel as [|fuel IH]; intros n jobParams H; [discriminate|].
  rewrite snd_runDockerCommand in H.
  destruct (get_prop jobParams "programDirectory") as [dir|e]; [|discriminate].
  destruct (snd (App.run_container host engine n (App.jobConfig_of dir)))
    as [r|e| |e|] eqn:Hrun; try discriminate.
  - injection H as ->.
    destruct (run_container_fulfilled _ _ _ _ _ Hrun) as (_ & _ & Hcap & Hwait).
    destruct (capture_undefined n Hcap) as [e He]. now exists n, e.
  - destruct (App.image_not_found e) as [[|]|e']; try discriminate.
    destruct (pull (engine n)) as [e'|  |e'| |[e'|]]; try discriminate.
    exact (IH _ _ H).
Qed.

End UndefinedResult.

(** X13: status 200 without a result has one cause only.  When the caller
    gets status 200 and the result is [undefined], one of the two [attach]
    calls of a run was rejected, and the container of that run exited with
    code 0. *)
Theorem undefined_result_means_failed_attach
    (host : Host) (engine : Engine) (fuel : nat) (params : value) :
  snd (App.startScrapperJob host engine fuel params)
    = Fulfilled {| status := 200; body := inr None |} ->
  exists m e,
    (attach_stdout_reply (engine m) = Rejects e \/
     attach_stderr_reply (engine m) = Rejects e) /\
    wait_reply (engine m) = Fulfils 0%Z.
Proof.
  rewrite snd_startScrapperJob.
  destruct (Validation.validateParams host params) as [v|e]; [|discriminate].
  destruct (Validation.isValid v); [|discriminate].
  destruct (snd (App.runDockerCommand host engine fuel 0 params)) as [r|e| |e|] eqn:Hjob;
    try discriminate.
  intros H. injection H as ->.
  exact (runDockerCommand_undefined host engine fuel 0 params Hjob).
Qed.

Lemma undefined_result_means_failed_attach_witness :
  let engine := Scenario.script [] (Scenario.attach_fails (Error "socket hang up")) in
  exists m e,
    (attach_stdout_reply (engine m) = Rejects e \/
     attach_stderr_reply (engine m) = Rejects e) /\
    wait_reply (engine m) = Fulfils 0%Z.
Proof.
  apply (undefined_result_means_failed_attach PosixFs.demo_host
           (Scenario.script [] (Scenario.attach_fails (Error "socket hang up")))
           1 (Scenario.job "job1")).
  reflexivity.
Defined.

(* ================================================================= *)
(** ** The second version of the file *)

Section RevisedFacts.

Import AsyncM.
Variable host : Host.
Variable engine : Engine.

(** The executor of the second version ends as the one of the first. *)
Lemma revised_collectStdout (toString : list Byte.byte -> string)
    (events : list stream_event) (stdoutData : string) :
  snd (Revised.collectStdout toString events stdoutData)
  = App.collectStdout toString events stdoutData.
Proof.
  revert stdoutData.
  induction events as [|[chunk| |e] events IH]; intros stdoutData; simpl; auto.
Qed.

Lemma revised_snd_capture (c : container) :
  snd (Revised.captureContainerResultFromLogs host engine c)
  = match attach_stdout_reply (engine c), attach_stderr_reply (engine c) with
    | Fulfils out, Fulfils _ =>
        App.collectStdout (Buffer_toString host) out EmptyString
    | Rejects e1, Rejects e2 =>
        Rejected (if stderr_attach_settles_first (engine c) then e2 else e1)
    | Rejects e, _ | _, Rejects e => Rejected e
    | _, _ => Pending
    end.
Proof.
  unfold Revised.captureContainerResultFromLogs, App.pipe_to_stderr, App.attach_both.
  project.
  destruct (attach_stdout_reply (engine c)), (attach_stderr_reply (engine c));
    project; rewrite ?revised_collectStdout; reflexivity.
Qed.

Lemma revised_snd_run_container (n : nat) (jobConfig : JobConfig) :
  snd (Revised.run_container host engine n jobConfig)
  = match createContainer_reply (engine n) with
    | Fulfils _ =>
        match start_reply (engine n) with
        | Fulfils _ =>
            match snd (Revised.captureContainerResultFromLogs host engine n) with
            | Fulfilled containerResult =>
                match wait_reply (engine n) with
                | Fulfils StatusCode =>
                    if (StatusCode =? 0)%Z then Fulfilled containerResult
                    else Rejected
                           (Error ("Puppeteer script execution failed with exit code "
                                   ++ JsString.of_Z StatusCode))
                | Rejects e => Rejected e
                | NeverSettles => Pending
                end
            | Rejected e => Rejected e
            | Pending => Pending
            | Uncaught e => Uncaught e
            | OutOfFuel => OutOfFuel
            end
        | Rejects e => Rejected e
        | NeverSettles => Pending
        end
    | Rejects e => Rejected e
    | NeverSettles => Pending
    end.
Proof.
  unfold Revised.run_container, Revised.createDockerContainer,
    Revised.startDockerContainer, Revised.waitForContainerToFinish.
  project.
  destruct (createContainer_reply (engine n)); project; auto.
  destruct (start_reply (engine n)); project; auto.
  destruct (snd (Revised.captureContainerResultFromLogs host engine n)); project; auto.
  destruct (wait_reply (engine n)) as [code|e|]; project; auto.
  destruct (code =? 0)%Z; cbn [negb]; project; auto.
Qed.

Lemma revised_snd_runDockerCommand (fuel n : nat) (jobParams : value) :
  snd (Revised.runDockerCommand host engine (S fuel) n jobParams)
  = match get_prop jobParams "programDirectory" with
    | Throw e => Rejected e
    | Normal dir =>
        match snd (Revised.run_container host engine n (App.jobConfig_of dir)) with
        | Rejected err =>
            match App.image_not_found err with
            | Throw e => Rejected e
            | Normal false => Rejected err
            | Normal true =>
                match pull (engine n) with
                | PullThrows e => Rejected e
                | PullCallbackNever => Pending
                | PullCallbackError e => Uncaught e
                | PullProgressNever => Pending
                | PullFinished (Some e) => Rejected e
                | PullFinished None =>
                    snd (Revised.runDockerCommand host engine fuel (S n)
                           (App.value_of_JobConfig (App.jobConfig_of dir)))
                end
            end
        | other => other
        end
    end.
Proof.
  cbn [Revised.runDockerCommand]. unfold Revised.handleImageNotFoundThenRetry.
  destruct (get_prop jobParams "programDirectory") as [dir|e]; project; auto.
  destruct (snd (Revised.run_container host engine n (App.jobConfig_of dir)))
    as [r|e| |e|]; auto.
  destruct (App.image_not_found e) as [[|]|e']; project; auto.
  destruct (pull (engine n)) as [e'|  |e'| |[e'|]]; project; auto.
Qed.

Lemma revised_snd_startScrapperJob (fuel : nat) (params : value) :
  snd (Revised.startScrapperJob host engine fuel params)
  = match Revised.validateParams host params with
    | Throw e => Rejected e
    | Normal v =>
        if Validation.isValid v then
          match snd (Revised.runDockerCommand host engine fuel 0 params) with
          | Fulfilled result => Fulfilled {| status := 200; body := inr result |}
          | Rejected err =>
              Fulfilled {| status := 500;
                           body := inl (Some ("Puppeteer script execution failed: "
                                              ++ message err)) |}
          | Pending => Pending
          | Uncaught e => Uncaught e
          | OutOfFuel => OutOfFuel
          end
        else Fulfilled {| status := 400; body := inl (Validation.error_of v) |}
    end.
Proof.
  unfold Revised.startScrapperJob.
  destruct (Revised.validateParams host params) as [v|e]; project; [|reflexivity].
  destruct (Validation.isValid v); cbn [negb]; project; [|reflexivity].
  destruct (snd (Revised.runDockerCommand host engine fuel 0 params)); reflexivity.
Qed.

(** A fulfilled capture of the second version carries a text. *)
Lemma revised_capture_text (c : container) (result : option string) :
  snd (Revised.captureContainerResultFromLogs host engine c) = Fulfilled result ->
  exists events chunks,
    attach_stdout_reply (engine c) = Fulfils events /\
    data_until_end events = Some chunks /\
    result = Some (text_of (Buffer_toString host) chunks).
Proof.
  rewrite revised_snd_capture.
  destruct (attach_stdout_reply (engine c)) as [out|e1|],
           (attach_stderr_reply (engine c)) as [err|e2|];
    intros H; try discriminate.
  destruct (collectStdout_fulfilled _ _ _ _ H) as [chunks [Hd Ht]].
  now exists out, chunks.
Qed.

Lemma revised_runDockerCommand_result (fuel n : nat) (jobParams : value)
    (result : option string) :
  snd (Revised.runDockerCommand host engine fuel n jobParams) = Fulfilled result ->
  exists m events chunks,
    attach_stdout_reply (engine m) = Fulfils events /\
    data_until_end events = Some chunks /\
    wait_reply (engine m) = Fulfils 0%Z /\
    result = Some (text_of (Buffer_toString host) chunks).
Proof.
  revert n jobParams.
  induction fuel as [|fuel IH]; intros n jobParams H; [discriminate|].
  rewrite revised_snd_runDockerCommand in H.
  destruct (get_prop jobParams "programDirectory") as [dir|e]; [|discriminate].
  destruct (snd (Revised.run_container host engine n (App.jobConfig_of dir)))
    as [r|e| |e|] eqn:Hrun; try discriminate.
  - injection H as ->. rewrite revised_snd_run_container in Hrun.
    destruct (createContainer_reply (engine n)); try discriminate.
    destruct (start_reply (engine n)); try discriminate.
    destruct (snd (Revised.captureContainerResultFromLogs host engine n))
      as [r'|e| |e|] eqn:Hcap; try discriminate.
    destruct (wait_reply (engine n)) as [code|e|] eqn:Hwait; try discriminate.
    destruct (Z.eqb_spec code 0) as [Hz|]; try discriminate.
    subst code. injection Hrun as ->.
    destruct (revised_capture_text n _ Hcap) as (events & chunks & Ho & Hd & Ht).
    now exists n, events, chunks.
  - destruct (App.image_not_found e) as [[|]|e']; try discriminate.
    destruct (pull (engine n)) as [e'|  |e'| |[e'|]]; try discriminate.
    exact (IH _ _ H).
Qed.

(** On runs whose [attach] calls are not rejected the two versions of a
    run end alike. *)
Lemma versions_run_alike (n : nat) (jobConfig : JobConfig) :
  attaches_or_waits (engine n) ->
  snd (Revised.run_container host engine n jobConfig)
  = snd (App.run_container host engine n jobConfig).
Proof.
  intros [Ho He].
  rewrite revised_snd_run_container, snd_run_container,
    revised_snd_capture, snd_capture.
  destruct (attach_stdout_reply (engine n)) as [out|e1|]; try discriminate;
    destruct (attach_stderr_reply (engine n)) as [err|e2|]; try discriminate;
    reflexivity.
Qed.

Lemma versions_job_alike (fuel n : nat) (jobParams : value) :
  (forall i, attaches_or_waits (engine i)) ->
  (forall i, pull_finishes_clean (engine i)) ->
  snd (Revised.runDockerCommand host engine fuel n jobParams)
  = snd (App.runDockerCommand host engine fuel n jobParams).
Proof.
  intros Hattach Hpull. revert n jobParams.
  induction fuel as [|fuel IH]; intros n jobParams; [reflexivity|].
  rewrite revised_snd_runDockerCommand, snd_runDockerCommand.
  destruct (get_prop jobParams "programDirectory") as [dir|e]; [|reflexivity].
  rewrite (versions_run_alike n _ (Hattach n)).
  destruct (snd (App.run_container host engine n (App.jobConfig_of dir)));
    try reflexivity.
  destruct (App.image_not_found e) as [[|]|e']; try reflexivity.
  pose proof (Hpull n) as Hclean. unfold pull_finishes_clean in Hclean.
  destruct (pull (engine n)) as [e'|  |e'| |[e'|]]; try reflexivity.
  - now destruct (Hclean e').
  - apply IH.
Qed.

Lemma revised_valid (params : value) (v : Validation.validation) :
  Validation.validateParams host params = Normal v ->
  Validation.isValid v = true ->
  Revised.validateParams host params
  = Normal {| Validation.isValid := true; Validation.error_of := None |}.
Proof.
  intros Hv Hok.
  destruct (validate_with_cases host _ params v Hv)
    as (dir & Hget & [(_ & ->)|[(_ & _ & ->)|(Ht & Hp & _)]]); try discriminate.
  unfold Revised.validateParams.
  now rewrite (validate_with_truthy host _ params dir Hget Ht), Hp.
Qed.

End RevisedFacts.

(** X14: in the second version of the file status 200 always carries a
    text.  The result is never [undefined]: it is the text of the data
    that the standard-output channel of a run delivered before its end,
    and the container of that run exited with code 0. *)
Theorem revised_result_is_standard_output
    (host : Host) (engine : Engine) (fuel : nat) (params : value)
    (result : option string) :
  snd (Revised.startScrapperJob host engine fuel params)
    = Fulfilled {| status := 200; body := inr result |} ->
  exists m events chunks,
    attach_stdout_reply (engine m) = Fulfils events /\
    data_until_end events = Some chunks /\
    wait_reply (engine m) = Fulfils 0%Z /\
    result = Some (text_of (Buffer_toString host) chunks).
Proof.
  rewrite revised_snd_startScrapperJob.
  destruct (Revised.validateParams host params) as [v|e]; [|discriminate].
  destruct (Validation.isValid v); [|discriminate].
  destruct (snd (Revised.runDockerCommand host engine fuel 0 params))
    as [r|e| |e|] eqn:Hjob; try discriminate.
  intros H. injection H as ->.
  exact (revised_runDockerCommand_result host engine fuel 0 params _ Hjob).
Qed.

Lemma revised_result_is_standard_output_witness :
  let engine := Scenario.script [] (Scenario.run ["do"; "ne"] ["warn"] 0) in
  exists m events chunks,
    attach_stdout_reply (engine m) = Fulfils events /\
    data_until_end events = Some chunks /\
    wait_reply (engine m) = Fulfils 0%Z /\
    Some "done" = Some (text_of (Buffer_toString PosixFs.demo_host) chunks).
Proof.
  apply (revised_result_is_standard_output PosixFs.demo_host
           (Scenario.script [] (Scenario.run ["do"; "ne"] ["warn"] 0))
           1 (Scenario.job "job1") (Some "done")).
  reflexivity.
Defined.

(** X15: in the second version of the file a pull that finishes with an
    error is answered.  When a run fails on a missing image and
    [onFinished] is called with an error, the caller gets status 500 with
    the message of that error. *)
Theorem revised_failed_pull_is_answered
    (host : Host) (engine : Engine) (fuel : nat) (params dir : value)
    (v : Validation.validation) (e err : error) :
  Revised.validateParams host params = Normal v ->
  Validation.isValid v = true ->
  get_prop params "programDirectory" = Normal dir ->
  snd (Revised.run_container host engine 0 (App.jobConfig_of dir)) = Rejected e ->
  App.image_not_found e = Normal true ->
  pull (engine 0) = PullFinished (Some err) ->
  snd (Revised.startScrapperJob host engine (S fuel) params)
  = Fulfilled {| status := 500;
                 body := inl (Some ("Puppeteer script execution failed: "
                                    ++ message err)) |}.
Proof.
  intros Hv Hok Hdir Hrun Hshape Hpull.
  rewrite revised_snd_startScrapperJob, Hv, Hok.
  now rewrite revised_snd_runDockerCommand, Hdir, Hrun, Hshape, Hpull.
Qed.

Lemma revised_failed_pull_is_answered_witness :
  let engine :=
    Scenario.script
      [Scenario.image_missing (PullFinished (Some (Error "manifest unknown")))]
      (Scenario.run ["done"] [] 0) in
  snd (Revised.startScrapperJob PosixFs.demo_host engine 1 (Scenario.job "job1"))
  = Fulfilled {| status := 500;
                 body := inl (Some ("Puppeteer script execution failed: "
                                    ++ message (Error "manifest unknown"))) |}.
Proof.
  apply (revised_failed_pull_is_answered PosixFs.demo_host
           (Scenario.script
              [Scenario.image_missing (PullFinished (Some (Error "manifest unknown")))]
              (Scenario.run ["done"] [] 0))
           0 (Scenario.job "job1") (VStr "job1")
           {| Validation.isValid := true; Validation.error_of := None |}
           Scenario.no_such_image (Error "manifest unknown"));
    reflexivity.
Defined.

(** X16: the two versions of the file differ only where an error is
    caught.  On an engine that rejects no [attach] and whose pulls never
    finish with an error, a request that the validation accepts gets the
    same answer from both. *)
Theorem versions_answer_alike
    (host : Host) (engine : Engine) (fuel : nat) (params : value)
    (v : Validation.validation) :
  Validation.validateParams host params = Normal v ->
  Validation.isValid v = true ->
  (forall i, attaches_or_waits (engine i)) ->
  (forall i, pull_finishes_clean (engine i)) ->
  snd (Revised.startScrapperJob host engine fuel params)
  = snd (App.startScrapperJob host engine fuel params).
Proof.
  intros Hv Hok Hattach Hpull.
  rewrite revised_snd_startScrapperJob, snd_startScrapperJob.
  rewrite (revised_valid host params v Hv Hok), Hv, Hok. cbn [Validation.isValid].
  now rewrite (versions_job_alike host engine fuel 0 params Hattach Hpull).
Qed.

Lemma versions_answer_alike_witness :
  let engine :=
    Scenario.script [Scenario.image_missing (PullFinished None)]
                    (Scenario.run ["done"] ["warn"] 3) in
  snd (Revised.startScrapperJob PosixFs.demo_host engine 2 (Scenario.job "job1"))
  = snd (App.startScrapperJob PosixFs.demo_host engine 2 (Scenario.job "job1")).
Proof.
  apply (versions_answer_alike PosixFs.demo_host
           (Scenario.script [Scenario.image_missing (PullFinished None)]
                            (Scenario.run ["done"] ["warn"] 3))
           2 (Scenario.job "job1")
           {| Validation.isValid := true; Validation.error_of := None |}).
  - reflexivity.
  - reflexivity.
  - intros i. destruct i as [|[|i]]; split; reflexivity.
  - intros i err. destruct i as [|[|i]]; discriminate.
Defined.

(** X17: in the second version of the file a failed [attach] is answered.
    When attaching to standard output is rejected, the run is rejected
    with that error, the container is not waited for, and (the error not
    having the shape of a missing image) the caller gets status 500 with
    its message. *)
Theorem revised_failed_attach_is_answered
    (host : Host) (engine : Engine) (fuel : nat) (params dir : value)
    (v : Validation.validation) (e : error) (errs : list (list Byte.byte)) :
  Revised.validateParams host params = Normal v ->
  Validation.isValid v = true ->
  get_prop params "programDirectory" = Normal dir ->
  createContainer_reply (engine 0) = Fulfils tt ->
  start_reply (engine 0) = Fulfils tt ->
  attach_stdout_reply (engine 0) = Rejects e ->
  attach_stderr_reply (engine 0) = Fulfils errs ->
  App.image_not_found e = Normal false ->
  snd (Revised.run_container host engine 0 (App.jobConfig_of dir)) = Rejected e /\
  snd (Revised.startScrapperJob host engine (S fuel) params)
  = Fulfilled {| status := 500;
                 body := inl (Some ("Puppeteer script execution failed: "
                                    ++ message e)) |}.
Proof.
  intros Hv Hok Hdir Hc Hs Hout Herr Hshape.
  assert (Hrun : snd (Revised.run_container host engine 0 (App.jobConfig_of dir))
                 = Rejected e).
  { now rewrite revised_snd_run_container, Hc, Hs, revised_snd_capture, Hout, Herr. }
  split; [exact Hrun|].
  rewrite revised_snd_startScrapperJob, Hv, Hok.
  now rewrite revised_snd_runDockerCommand, Hdir, Hrun, Hshape.
Qed.

Lemma revised_failed_attach_is_answered_witness :
  let refused := Error "socket hang up" in
  let engine :=
    Scenario.script []
      {| createContainer_reply := Fulfils tt;
         start_reply := Fulfils tt;
         attach_stdout_reply := Rejects refused;
         attach_stderr_reply := Fulfils [Scenario.bytes "warn"];
         stderr_attach_settles_first := false;
         wait_reply := Fulfils 0%Z;
         pull := PullFinished None |} in
  snd (Revised.run_container PosixFs.demo_host engine 0 (App.jobConfig_of (VStr "job1")))
    = Rejected refused /\
  snd (Revised.startScrapperJob PosixFs.demo_host engine 1 (Scenario.job "job1"))
  = Fulfilled {| status := 500;
                 body := inl (Some ("Puppeteer script execution failed: "
                                    ++ message refused)) |}.
Proof.
  apply (revised_failed_attach_is_answered PosixFs.demo_host
           (Scenario.script []
              {| createContainer_reply := Fulfils tt;
                 start_reply := Fulfils tt;
                 attach_stdout_reply := Rejects (Error "socket hang up");
                 attach_stderr_reply := Fulfils [Scenario.bytes "warn"];
                 stderr_attach_settles_first := false;
                 wait_reply := Fulfils 0%Z;
                 pull := PullFinished None |})
           0 (Scenario.job "job1") (VStr "job1")
           {| Validation.isValid := true; Validation.error_of := None |}
           (Error "socket hang up") [Scenario.bytes "warn"]);
    reflexivity.
Defined.

(** X18: nothing in the service ends a job whose container does not exit.
    When the output was captured to its end and [container.wait] never
    settles, the request is never answered and the captured output is not
    delivered. *)
Theorem running_container_blocks_the_request
    (host : Host) (engine : Engine) (fuel : nat) (params : value)
    (v : Validation.validation) (result : option string) :
  Validation.validateParams host params = Normal v ->
  Validation.isValid v = true ->
  createContainer_reply (engine 0) = Fulfils tt ->
  start_reply (engine 0) = Fulfils tt ->
  snd (App.captureContainerResultFromLogs host engine 0) = Fulfilled result ->
  wait_reply (engine 0) = NeverSettles ->
  snd (App.startScrapperJob host engine (S fuel) params) = Pending.
Proof.
  intros Hv Hok Hc Hs Hcap Hwait.
  destruct (valid_has_directory host params v Hv) as [dir Hdir].
  rewrite snd_startScrapperJob, Hv, Hok.
  now rewrite snd_runDockerCommand, Hdir, snd_run_container, Hc, Hs, Hcap, Hwait.
Qed.

Lemma running_container_blocks_the_request_witness :
  let engine :=
    Scenario.script []
      {| createContainer_reply := Fulfils tt;
         start_reply := Fulfils tt;
         attach_stdout_reply := Fulfils [Data (Scenario.bytes "done"); End];
         attach_stderr_reply := Fulfils [];
         stderr_attach_settles_first := false;
         wait_reply := NeverSettles;
         pull := PullFinished None |} in
  snd (App.startScrapperJob PosixFs.demo_host engine 1 (Scenario.job "job1")) = Pending.
Proof.
  apply (running_container_blocks_the_request PosixFs.demo_host
           (Scenario.script []
              {| createContainer_reply := Fulfils tt;
                 start_reply := Fulfils tt;
                 attach_stdout_reply := Fulfils [Data (Scenario.bytes "done"); End];
                 attach_stderr_reply := Fulfils [];
                 stderr_attach_settles_first := false;
                 wait_reply := NeverSettles;
                 pull := PullFinished None |})
           0 (Scenario.job "job1")
           {| Validation.isValid := true; Validation.error_of := None |}
           (Some "done"));
    reflexivity.
Defined.

(** X19: a pull that fails at the call is answered.  When a run fails on a
    missing image and the awaited [docker.pull] itself throws, the [catch]
    of [pullAndRetry] rejects: the image is asked for once, no further
    container is created, and the caller gets status 500 with the message
    of that error. *)
Theorem thrown_pull_is_answered
    (host : Host) (engine : Engine) (fuel : nat) (params dir : value)
    (v : Validation.validation) (e err : error) :
  Validation.validateParams host params = Normal v ->
  Validation.isValid v = true ->
  get_prop params "programDirectory" = Normal dir ->
  snd (App.run_container host engine 0 (App.jobConfig_of dir)) = Rejected e ->
  App.image_not_found e = Normal true ->
  pull (engine 0) = PullThrows err ->
  let job := App.startScrapperJob host engine (S fuel) params in
  snd job = Fulfilled {| status := 500;
                         body := inl (Some ("Puppeteer script execution failed: "
                                            ++ message err)) |} /\
  pulls (fst job) = 1 /\ creations (fst job) = 1.
Proof.
  intros Hv Hok Hdir Hrun Hshape Hpull job. subst job.
  rewrite snd_startScrapperJob, fst_startScrapperJob, Hv, Hok.
  rewrite snd_runDockerCommand, fst_runDockerCommand, Hdir, Hrun, Hshape, Hpull.
  split; [reflexivity|].
  destruct (run_container_counts host engine 0 (App.jobConfig_of dir)) as [Hp Hc].
  rewrite !pulls_app, !creations_app, Hp, Hc. split; reflexivity.
Qed.

Lemma thrown_pull_is_answered_witness :
  let engine :=
    Scenario.script [Scenario.image_missing (PullThrows (Error "connect EACCES"))]
                    (Scenario.run ["done"] [] 0) in
  let job := App.startScrapperJob PosixFs.demo_host engine 1 (Scenario.job "job1") in
  snd job = Fulfilled {| status := 500;
                         body := inl (Some ("Puppeteer script execution failed: "
                                            ++ message (Error "connect EACCES"))) |} /\
  pulls (fst job) = 1 /\ creations (fst job) = 1.
Proof.
  apply (thrown_pull_is_answered PosixFs.demo_host
           (Scenario.script [Scenario.image_missing (PullThrows (Error "connect EACCES"))]
                            (Scenario.run ["done"] [] 0))
           0 (Scenario.job "job1") (VStr "job1")
           {| Validation.isValid := true; Validation.error_of := None |}
           Scenario.no_such_image (Error "connect EACCES"));
    reflexivity.
Defined.

(** X20: an error that [docker.pull] hands to its callback is thrown by
    the callback, which no [try] encloses.  In both versions of the file
    the promise of the job is then neither fulfilled nor rejected: the
    error escapes and the request is not answered. *)
Theorem callback_error_escapes
    (host : Host) (engine : Engine) (fuel : nat) (jobParams dir : value)
    (e err : error) :
  get_prop jobParams "programDirectory" = Normal dir ->
  App.image_not_found e = Normal true ->
  pull (engine 0) = PullCallbackError err ->
  (snd (App.run_container host engine 0 (App.jobConfig_of dir)) = Rejected e ->
   snd (App.runDockerCommand host engine (S fuel) 0 jobParams) = Uncaught err) /\
  (snd (Revised.run_container host engine 0 (App.jobConfig_of dir)) = Rejected e ->
   snd (Revised.runDockerCommand host engine (S fuel) 0 jobParams) = Uncaught err).
Proof.
  intros Hdir Hshape Hpull. split; intros Hrun.
  - now rewrite snd_runDockerCommand, Hdir, Hrun, Hshape, Hpull.
  - now rewrite revised_snd_runDockerCommand, Hdir, Hrun, Hshape, Hpull.
Qed.

Lemma callback_error_escapes_witness :
  let refused := Error "connect ENOENT /var/run/docker.sock" in
  let engine :=
    Scenario.script [Scenario.image_missing (PullCallbackError refused)]
                    (Scenario.run ["done"] [] 0) in
  snd (App.runDockerCommand PosixFs.demo_host engine 1 0 (Scenario.job "job1"))
    = Uncaught refused /\
  snd (Revised.runDockerCommand PosixFs.demo_host engine 1 0 (Scenario.job "job1"))
    = Uncaught refused.
Proof.
  destruct (callback_error_escapes PosixFs.demo_host
              (Scenario.script
                 [Scenario.image_missing
                    (PullCallbackError (Error "connect ENOENT /var/run/docker.sock"))]
                 (Scenario.run ["done"] [] 0))
              0 (Scenario.job "job1") (VStr "job1") Scenario.no_such_image
              (Error "connect ENOENT /var/run/docker.sock")
              eq_refl eq_refl eq_refl) as [Ha Hr].
  split; [apply Ha | apply Hr]; reflexivity.
Defined.
